(** * Halo-model power spectrum (ccl_halomod.c): embedding and properties

    The C file computes the one-halo, two-halo and total matter power
    spectrum.  Doubles are IEEE binary64 values ([float] of the Standard
    Library, primitive arithmetic), the [int *status] cell and the
    [cosmo->status_message] buffer are threaded as explicit state, and the
    routines of other translation units (background, mass function, power
    spectrum, libm, GSL) are fields of the class [Externals]. *)

From Stdlib Require Import ZArith String Ascii Bool List Floats.
Import ListNotations.

Set Warnings "-inexact-float".
Local Open Scope string_scope.
Local Open Scope float_scope.

Module HaloMod.

(** ** Data *)

(** The macro [NAN] of math.h. *)
Definition NAN : float := nan.

(** [GSL_SUCCESS] of gsl_errno.h. *)
Definition GSL_SUCCESS : Z := 0.

(** The line feed that ends the status messages. *)
Definition nl : string := String (ascii_of_nat 10) EmptyString.

(** Concentration-mass relations.  A C enum holds any int: the values that
    are none of the three named ones reach the [default] case. *)
Inductive ccl_conc_label : Type :=
| ccl_bhattacharya2011
| ccl_duffy2008_virial
| ccl_constant_concentration
| ccl_conc_other (n : Z).

(** Halo profiles. *)
Inductive ccl_win_label : Type :=
| ccl_nfw
| ccl_win_other (n : Z).

(** Species of [ccl_rho_x]; this file only names the matter label. *)
Inductive ccl_species_x_label : Type :=
| ccl_species_m_label
| ccl_species_other (n : Z).

(** [cosmo->params]: the only parameter this file reads is [h]. *)
Record ccl_parameters : Type := { h : float }.

(** [ccl_cosmology]: the parameters, read-only here, and the message buffer
    the error paths write with strcpy and sprintf. *)
Record ccl_cosmology : Type :=
  { params : ccl_parameters;
    status_message : string }.

(** The memory a routine works on: the cosmology behind [cosmo] and the int
    behind its [status] argument. *)
Record mem : Type :=
  { cosmo : ccl_cosmology;
    status : Z }.

(** ** State passing *)

Definition M (A : Type) : Type := mem -> A * mem.

Definition ret {A : Type} (x : A) : M A := fun s => (x, s).

Definition bind {A B : Type} (m : M A) (f : A -> M B) : M B :=
  fun s => let (x, s') := m s in f x s'.

Notation "x <- m ;; k" := (bind m (fun x => k))
  (at level 61, m at next level, right associativity).
Notation "m ;; k" := (bind m (fun _ => k))
  (at level 61, right associativity).

(** [*status = code;] *)
Definition set_status (code : Z) : M unit :=
  fun s => (tt, {| cosmo := cosmo s; status := code |}).

(** [strcpy(cosmo->status_message, msg)] and the sprintf of a constant
    string: both replace the buffer's content. *)
Definition strcpy_status_message (msg : string) : M unit :=
  fun s => (tt, {| cosmo := {| params := params (cosmo s);
                               status_message := msg |};
                   status := status s |}).

(** [cosmo->params.h] *)
Definition params_h : M float := fun s => (h (params (cosmo s)), s).

(** ** Routines of the other translation units *)

(** What an error path of a collaborator stores: the code in [*status], the
    text in [cosmo->status_message]. *)
Record ccl_error : Type :=
  { code : Z;
    message : string }.

(** Modelled from the spec: the collaborators (ccl_background.c,
    ccl_massfunc.c, ccl_power.c) are not part of this file.  Section 6 has
    them as pure or status-mutating functions of the cosmology and their
    arguments returning a scalar: a call yields a value that depends on the
    cosmological parameters and the arguments only, and either leaves the
    status channel alone or raises one error on it. *)
Record outcome : Type :=
  { value : float;
    raised : option ccl_error }.

Definition raise_error (e : ccl_error) (s : mem) : mem :=
  {| cosmo := {| params := params (cosmo s); status_message := message e |};
     status := code e |}.

(** A call [f(cosmo, ..., status)] of a collaborator. *)
Definition call (f : ccl_parameters -> outcome) : M float :=
  fun s =>
    let o := f (params (cosmo s)) in
    (value o, match raised o with
              | None => s
              | Some e => raise_error e s
              end).

(** [gsl_integration_qag] receives the integrand as a function pointer and
    cannot see the cosmology or the status cell: all it does is evaluate the
    integrand at abscissae chosen from the values seen so far, a bounded
    number of times, and then report a status code, the estimate and the
    error estimate.  Such a procedure is a finite tree. *)
Inductive qag_run : Type :=
| qag_done (qagstatus : Z) (result eresult : float)
| qag_eval (x : float) (next : float -> qag_run).

(** Running the procedure against an integrand that works on [mem]. *)
Fixpoint run_qag (t : qag_run) (F : float -> M float) : M (Z * float * float) :=
  match t with
  | qag_done q r e => ret (q, r, e)
  | qag_eval x next => y <- F x ;; run_qag (next y) F
  end.

(** Everything ccl_halomod.c takes from its headers and libraries. *)
Class Externals : Type :=
  { (* libm and GSL special functions *)
    sin : float -> float;
    cos : float -> float;
    log : float -> float;
    log10 : float -> float;
    pow : float -> float -> float;
    gsl_sf_Si : float -> float;
    gsl_sf_Ci : float -> float;
    (* gsl_integration_qag a b epsabs epsrel limit key *)
    gsl_integration_qag : float -> float -> float -> float -> Z -> Z -> qag_run;
    (* collaborators: cosmology first, then the arguments of the C prototype *)
    Dv_BryanNorman : ccl_parameters -> float -> outcome;
    r_delta : ccl_parameters -> float -> float -> float -> outcome;
    ccl_growth_factor : ccl_parameters -> float -> outcome;
    ccl_sigmaM : ccl_parameters -> float -> float -> outcome;
    ccl_rho_x : ccl_parameters -> float -> ccl_species_x_label -> Z -> outcome;
    ccl_massfunc : ccl_parameters -> float -> float -> float -> outcome;
    ccl_halo_bias : ccl_parameters -> float -> float -> float -> outcome;
    ccl_linear_matter_power : ccl_parameters -> float -> float -> outcome;
    (* macros of ccl_halomod.h / ccl_params.h *)
    HM_MMIN : float;
    HM_MMAX : float;
    HM_EPSABS : float;
    HM_EPSREL : float;
    HM_LIMIT : Z;
    HM_INT_METHOD : Z;
    (* error codes of ccl_error.h *)
    CCL_ERROR_CONC_DV : Z;
    CCL_ERROR_HALOCONC : Z;
    CCL_ERROR_HALOWIN : Z;
    CCL_ERROR_ONE_HALO_INT : Z;
    CCL_ERROR_TWO_HALO_INT : Z }.

(** Modelled from the spec: [ccl_raise_exception] and
    [ccl_raise_gsl_warning] (ccl_error.c) are logging machinery, out of
    scope in section 1.  They receive an int and a string, neither the
    cosmology nor the status pointer, so they leave [mem] as it is. *)
Definition ccl_raise_exception (err : Z) (msg : string) : M unit := ret tt.

Definition ccl_raise_gsl_warning (gslstatus : Z) (msg : string) : M unit := ret tt.

(** ** The routines of ccl_halomod.c *)

Section Routines.

Context {E : Externals}.

(** Analytic Fourier transform of the NFW profile. *)
Definition u_nfw_c (c halomass k a : float) : M float :=
  Delta_v <- call (fun p => Dv_BryanNorman p a) ;;
  if k =? 0 then
    ret 1
  else
    rv <- call (fun p => r_delta p halomass a Delta_v) ;;
    let rs := rv / c in
    let ks := k * rs in
    let f1 := sin ks * (gsl_sf_Si (ks * (1 + c)) - gsl_sf_Si ks) in
    let f2 := cos ks * (gsl_sf_Ci (ks * (1 + c)) - gsl_sf_Ci ks) in
    let f3 := sin (c * ks) / (ks * (1 + c)) in
    let fc := log (1 + c) - c / (1 + c) in
    ret ((f1 + f2 - f3) / fc).

Definition msg_bhattacharya : string :=
  "ccl_halomod.c: halo_concentration(): Bhattacharya (2011) concentration relation only valid for Delta_v = 200 " ++ nl.

Definition msg_duffy : string :=
  "ccl_halomod.c: halo_concentration(): Duffy (2008) virial concentration called with non-virial Delta_v" ++ nl.

Definition ccl_halo_concentration (halomass a odelta : float)
    (label : ccl_conc_label) : M float :=
  match label with
  | ccl_bhattacharya2011 =>
      if negb (odelta =? 200) then
        set_status CCL_ERROR_CONC_DV ;;
        strcpy_status_message msg_bhattacharya ;;
        ret NAN
      else
        gz <- call (fun p => ccl_growth_factor p a) ;;
        g0 <- call (fun p => ccl_growth_factor p 1.0) ;;
        let delta_c := 1.686 in
        sigma <- call (fun p => ccl_sigmaM p halomass a) ;;
        let nu := delta_c / sigma in
        ret (9 * pow nu (-0.29) * pow (gz / g0) 1.15)
  | ccl_duffy2008_virial =>
      Dv <- call (fun p => Dv_BryanNorman p a) ;;
      if negb (odelta =? Dv) then
        set_status CCL_ERROR_CONC_DV ;;
        strcpy_status_message msg_duffy ;;
        ret NAN
      else
        hh <- params_h ;;
        let Mpiv := 2e12 / hh in
        let A := 7.85 in
        let B := -0.081 in
        let C := -0.71 in
        ret (A * pow (halomass / Mpiv) B * pow a (- C))
  | ccl_constant_concentration =>
      ret 4
  | ccl_conc_other _ =>
      set_status CCL_ERROR_HALOCONC ;;
      ccl_raise_exception CCL_ERROR_HALOCONC
        "ccl_halomod.c: concentration-mass relation specified incorrectly" ;;
      ret NAN
  end.

(** Fourier transforms of halo profiles. *)
Definition window_function (m k a odelta : float) (label : ccl_win_label)
    : M float :=
  match label with
  | ccl_nfw =>
      rho_matter <- call (fun p => ccl_rho_x p 1 ccl_species_m_label 1%Z) ;;
      c <- ccl_halo_concentration m a odelta ccl_duffy2008_virial ;;
      u <- u_nfw_c c m k a ;;
      ret (m * u / rho_matter)
  | ccl_win_other _ =>
      set_status CCL_ERROR_HALOWIN ;;
      ccl_raise_exception CCL_ERROR_HALOWIN
        "ccl_halomod.c: Window function specified incorrectly" ;;
      ret NAN
  end.

(** The parameter bundle of the integrands.  Its two pointers, [cosmo] and
    [status], are the two cells of the [mem] the integrand runs on. *)
Record Int_one_halo_Par : Type :=
  { oh_k : float;
    oh_a : float }.

Definition one_halo_integrand (p : Int_one_halo_Par) (log10mass : float)
    : M float :=
  let halomass := pow 10 log10mass in
  Delta_v <- call (fun c => Dv_BryanNorman c (oh_a p)) ;;
  wk <- window_function halomass (oh_k p) (oh_a p) Delta_v ccl_nfw ;;
  dn_dlogM <- call (fun c => ccl_massfunc c halomass (oh_a p) Delta_v) ;;
  ret (dn_dlogM * pow wk 2).

(** The integrand writes through [ipar.status], which points to the local
    [one_halo_integral_status] (initially 0), and through [ipar.cosmo],
    which is the caller's cosmology.  [with_local_status] runs a computation
    on the caller's cosmology and a fresh status cell; when it ends the
    local cell is gone and the caller's status is what it was. *)
Definition with_local_status {A : Type} (init : Z) (m : M A) : M A :=
  fun s =>
    let (x, s') := m {| cosmo := cosmo s; status := init |} in
    (x, {| cosmo := cosmo s'; status := status s |}).

Definition msg_one_halo_int : string :=
  "ccl_halomod.c: one_halo_integral(): Integration failure" ++ nl.

Definition one_halo_integral (k a : float) : M float :=
  let log10mmin := log10 HM_MMIN in
  let log10mmax := log10 HM_MMAX in
  let ipar := {| oh_k := k; oh_a := a |} in
  r <- with_local_status 0
         (run_qag (gsl_integration_qag log10mmin log10mmax
                     HM_EPSABS HM_EPSREL HM_LIMIT HM_INT_METHOD)
                  (one_halo_integrand ipar)) ;;
  let '(qagstatus, result, eresult) := r in
  if negb (qagstatus =? GSL_SUCCESS)%Z then
    ccl_raise_gsl_warning qagstatus "ccl_halomod.c: one_halo_integral():" ;;
    set_status CCL_ERROR_ONE_HALO_INT ;;
    strcpy_status_message msg_one_halo_int ;;
    ret NAN
  else
    ret result.

Record Int_two_halo_Par : Type :=
  { th_k : float;
    th_a : float }.

Definition two_halo_integrand (p : Int_two_halo_Par) (log10mass : float)
    : M float :=
  let halomass := pow 10 log10mass in
  Delta_v <- call (fun c => Dv_BryanNorman c (th_a p)) ;;
  wk <- window_function halomass (th_k p) (th_a p) Delta_v ccl_nfw ;;
  dn_dlogM <- call (fun c => ccl_massfunc c halomass (th_a p) Delta_v) ;;
  b <- call (fun c => ccl_halo_bias c halomass (th_a p) Delta_v) ;;
  ret (b * dn_dlogM * wk).

Definition msg_two_halo_int : string :=
  "ccl_halomod.c: two_halo_integral(): Integration failure" ++ nl.

Definition two_halo_integral (k a : float) : M float :=
  let log10mmin := log10 HM_MMIN in
  let log10mmax := log10 HM_MMAX in
  let ipar := {| th_k := k; th_a := a |} in
  r <- with_local_status 0
         (run_qag (gsl_integration_qag log10mmin log10mmax
                     HM_EPSABS HM_EPSREL HM_LIMIT HM_INT_METHOD)
                  (two_halo_integrand ipar)) ;;
  let '(qagstatus, result, eresult) := r in
  if negb (qagstatus =? GSL_SUCCESS)%Z then
    ccl_raise_gsl_warning qagstatus "ccl_halomod.c: two_halo_integral():" ;;
    set_status CCL_ERROR_TWO_HALO_INT ;;
    strcpy_status_message msg_two_halo_int ;;
    ret NAN
  else
    ret result.

Definition ccl_twohalo_matter_power (k a : float) : M float :=
  I2h <- two_halo_integral k a ;;
  I0 <- two_halo_integral 0 a ;;
  let A := 1 - I0 in
  Delta_v <- call (fun p => Dv_BryanNorman p a) ;;
  W1 <- window_function HM_MMIN k a Delta_v ccl_nfw ;;
  W2 <- window_function HM_MMIN 0 a Delta_v ccl_nfw ;;
  let A := A * W1 / W2 in
  let I2h := I2h + A in
  P <- call (fun p => ccl_linear_matter_power p k a) ;;
  ret (P * I2h * I2h).

Definition ccl_onehalo_matter_power (k a : float) : M float :=
  one_halo_integral k a.

(** C leaves the order of the two calls in [f() + g()] open.  This is the
    left-to-right order; [ccl_halomodel_matter_power_rl] is the other. *)
Definition ccl_halomodel_matter_power (k a : float) : M float :=
  p2 <- ccl_twohalo_matter_power k a ;;
  p1 <- ccl_onehalo_matter_power k a ;;
  ret (p2 + p1).

Definition ccl_halomodel_matter_power_rl (k a : float) : M float :=
  p1 <- ccl_onehalo_matter_power k a ;;
  p2 <- ccl_twohalo_matter_power k a ;;
  ret (p2 + p1).

End Routines.

(** ** What a routine can read and write

    The routines and their collaborators never write [cosmo->params], and
    the value they return does not depend on what the status cell or the
    message buffer hold when they are called. *)

Definition same_params (s s' : mem) : Prop :=
  params (cosmo s) = params (cosmo s').

Definition keeps_params {A : Type} (m : M A) : Prop :=
  forall s, params (cosmo (snd (m s))) = params (cosmo s).

Definition state_blind {A : Type} (m : M A) : Prop :=
  forall s s', same_params s s' -> fst (m s) = fst (m s').

Definition stable {A : Type} (m : M A) : Prop :=
  keeps_params m /\ state_blind m.

(** The value of a stable computation is a function of the parameters: the
    value it has from the memory below, or from any other one that holds the
    same parameters. *)
Definition mem_of (p : ccl_parameters) : mem :=
  {| cosmo := {| params := p; status_message := EmptyString |};
     status := 0 |}.

Definition value_of {A : Type} (m : M A) (p : ccl_parameters) : A :=
  fst (m (mem_of p)).

(** A property of the memory that a computation cannot break. *)
Definition preserves {A : Type} (P : mem -> Prop) (m : M A) : Prop :=
  forall s, P s -> P (snd (m s)).

(** ** The quantities the specification names *)

Section Quantities.

Context {E : Externals}.

(** The virial overdensity at scale factor [a]. *)
Definition virial_overdensity (p : ccl_parameters) (a : float) : float :=
  value (Dv_BryanNorman p a).

(** c = 9 nu^-0.29 (g(a)/g(1))^1.15 with nu = 1.686 / sigma(M,a). *)
Definition bhattacharya_concentration (p : ccl_parameters)
    (halomass a : float) : float :=
  let nu := 1.686 / value (ccl_sigmaM p halomass a) in
  let g := fun x => value (ccl_growth_factor p x) in
  9 * pow nu (-0.29) * pow (g a / g 1) 1.15.

(** c = A (M/M_pivot)^B a^-C, A = 7.85, B = -0.081, C = -0.71,
    M_pivot = 2e12 / h. *)
Definition duffy_concentration (p : ccl_parameters) (halomass a : float)
    : float :=
  let A := 7.85 in
  let B := -0.081 in
  let C := -0.71 in
  let M_pivot := 2e12 / h p in
  A * pow (halomass / M_pivot) B * pow a (- C).

(** The state in which an error path leaves the memory. *)
Definition model_mismatch (msg : string) : ccl_error :=
  {| code := CCL_ERROR_CONC_DV; message := msg |}.

Definition one_halo_failure : ccl_error :=
  {| code := CCL_ERROR_ONE_HALO_INT; message := msg_one_halo_int |}.

Definition two_halo_failure : ccl_error :=
  {| code := CCL_ERROR_TWO_HALO_INT; message := msg_two_halo_int |}.

(** The profile transform U and the window W as values. *)
Definition nfw_transform (p : ccl_parameters) (c halomass k a : float)
    : float :=
  value_of (u_nfw_c c halomass k a) p.

Definition window_value (p : ccl_parameters) (m k a odelta : float) : float :=
  value_of (window_function m k a odelta ccl_nfw) p.

(** The quadrature of each mass integral: the call of gsl_integration_qag
    over [log10(M_min), log10(M_max)] with the integrand on its local status
    cell, yielding (qagstatus, result, eresult). *)
Definition one_halo_qag (k a : float) : M (Z * float * float) :=
  with_local_status 0
    (run_qag (gsl_integration_qag (log10 HM_MMIN) (log10 HM_MMAX)
                HM_EPSABS HM_EPSREL HM_LIMIT HM_INT_METHOD)
             (one_halo_integrand {| oh_k := k; oh_a := a |})).

Definition two_halo_qag (k a : float) : M (Z * float * float) :=
  with_local_status 0
    (run_qag (gsl_integration_qag (log10 HM_MMIN) (log10 HM_MMAX)
                HM_EPSABS HM_EPSREL HM_LIMIT HM_INT_METHOD)
             (two_halo_integrand {| th_k := k; th_a := a |})).

Definition qagstatus_of (r : Z * float * float) : Z := fst (fst r).

Definition result_of (r : Z * float * float) : float := snd (fst r).

Definition one_halo_converges (p : ccl_parameters) (k a : float) : bool :=
  (qagstatus_of (value_of (one_halo_qag k a) p) =? GSL_SUCCESS)%Z.

Definition two_halo_converges (p : ccl_parameters) (k a : float) : bool :=
  (qagstatus_of (value_of (two_halo_qag k a) p) =? GSL_SUCCESS)%Z.

(** two_halo(k): the value of the two-halo mass integral. *)
Definition two_halo_value (p : ccl_parameters) (k a : float) : float :=
  value_of (two_halo_integral k a) p.

(** I2h = two_halo(k) + A', A' = (1 - two_halo(0)) W(M_min,k,a) / W(M_min,0,a). *)
Definition corrected_mass_integral (p : ccl_parameters) (k a : float)
    : float :=
  let Delta_v := virial_overdensity p a in
  let A := 1 - two_halo_value p 0 a in
  let A' := A * window_value p HM_MMIN k a Delta_v
              / window_value p HM_MMIN 0 a Delta_v in
  two_halo_value p k a + A'.

(** The memory holds parameters [p] and no trace of the error path of the
    Duffy guard: neither its message nor its code. *)
Definition no_mismatch (p : ccl_parameters) (s : mem) : Prop :=
  params (cosmo s) = p /\
  status_message (cosmo s) <> msg_duffy /\
  status s <> CCL_ERROR_CONC_DV.

(** The ModelMismatch code is none of the other values this file stores in
    a status cell: the initial 0 and the two IntegrationFailure codes. *)
Definition mismatch_code_distinct : Prop :=
  CCL_ERROR_CONC_DV <> 0%Z /\
  CCL_ERROR_CONC_DV <> CCL_ERROR_ONE_HALO_INT /\
  CCL_ERROR_CONC_DV <> CCL_ERROR_TWO_HALO_INT.

(** A collaborator outcome that does not imitate the Duffy guard. *)
Definition quiet (o : outcome) : Prop :=
  match raised o with
  | None => True
  | Some e => code e <> CCL_ERROR_CONC_DV /\ message e <> msg_duffy
  end.

Definition collaborators_quiet : Prop :=
  (forall p a, quiet (Dv_BryanNorman p a)) /\
  (forall p m a d, quiet (r_delta p m a d)) /\
  (forall p a l c, quiet (ccl_rho_x p a l c)) /\
  (forall p m a d, quiet (ccl_massfunc p m a d)) /\
  (forall p m a d, quiet (ccl_halo_bias p m a d)) /\
  (forall p k a, quiet (ccl_linear_matter_power p k a)).

End Quantities.

(** ** A concrete setting for the examples

    The properties below hold for every instance of [Externals].  The
    examples run the routines in the setting of this section: a flat
    cosmology with Omega_m = 0.3 and h = 0.7, the Bryan-Norman fit for the
    virial overdensity, a matter density that dilutes as a^-3, and a
    quadrature that evaluates the integrand once, at the midpoint.  libm and
    the GSL special functions have no counterpart on [float]; simple
    stand-ins take their place, and the examples are chosen so that what
    they show does not depend on them (zero wavenumber, error paths, status
    and message).  The error codes are distinct numbers. *)

Definition ok (v : float) : outcome := {| value := v; raised := None |}.

Definition example_Omega_m : float := 0.3.

(** Matter fraction at scale factor [a] for matter plus a constant. *)
Definition example_omega_m (a : float) : float :=
  example_Omega_m / (example_Omega_m + (1 - example_Omega_m) * (a * a * a)).

(** Bryan and Norman (1998): (18 pi^2 + 82 x - 39 x^2) / Omega_m(a),
    x = Omega_m(a) - 1. *)
Definition example_Dv_BryanNorman (p : ccl_parameters) (a : float) : outcome :=
  let Om_mz := example_omega_m a in
  let x := Om_mz - 1 in
  ok ((177.65287921960845 + 82 * x - 39 * (x * x)) / Om_mz).

(** Mean matter density at scale factor [a], in Msun/Mpc^3:
    2.775e11 h^2 Omega_m / a^3.  The species and the comoving flag are not
    looked at. *)
Definition example_rho_x (p : ccl_parameters) (a : float)
    (label : ccl_species_x_label) (is_comoving : Z) : outcome :=
  ok (2.775e11 * (h p * h p) * example_Omega_m / (a * a * a)).

(** One evaluation at the midpoint; [qagstatus] is what the routine then
    reports (0 is GSL_SUCCESS, 11 is GSL_EMAXITER). *)
Definition midpoint_rule (qagstatus : Z) (a b : float) : qag_run :=
  qag_eval ((a + b) / 2) (fun y => qag_done qagstatus ((b - a) * y) 0).

Definition example_externals (qagstatus : Z)
    (massfunc : ccl_parameters -> float -> float -> float -> outcome)
    : Externals :=
  {| sin := fun x => x;
     cos := fun x => 1;
     log := fun x => x - 1;
     log10 := fun x => x - 1;
     pow := fun x y => 1 + y * (x - 1);
     gsl_sf_Si := fun x => x;
     gsl_sf_Ci := fun x => x - 1;
     gsl_integration_qag := fun a b epsabs epsrel limit key =>
                              midpoint_rule qagstatus a b;
     Dv_BryanNorman := example_Dv_BryanNorman;
     r_delta := fun p halomass a odelta => ok (halomass / odelta);
     ccl_growth_factor := fun p a => ok a;
     ccl_sigmaM := fun p halomass a => ok a;
     ccl_rho_x := example_rho_x;
     ccl_massfunc := massfunc;
     ccl_halo_bias := fun p halomass a odelta => ok 1;
     ccl_linear_matter_power := fun p k a => ok (a * a / (1 + k));
     HM_MMIN := 1e7;
     HM_MMAX := 1e17;
     HM_EPSABS := 0;
     HM_EPSREL := 1e-4;
     HM_LIMIT := 1000;
     HM_INT_METHOD := 4;
     CCL_ERROR_CONC_DV := 1049;
     CCL_ERROR_HALOCONC := 1047;
     CCL_ERROR_HALOWIN := 1048;
     CCL_ERROR_ONE_HALO_INT := 1050;
     CCL_ERROR_TWO_HALO_INT := 1051 |}.

Definition example_massfunc (p : ccl_parameters) (halomass a odelta : float)
    : outcome :=
  ok (1 / halomass).

(** A mass function that raises an error and still returns a number. *)
Definition failing_massfunc (p : ccl_parameters) (halomass a odelta : float)
    : outcome :=
  {| value := 1 / halomass;
     raised := Some {| code := 1034; message := "ccl_massfunc(): failure" |} |}.

(** The quadrature converges. *)
Definition example_ok : Externals := example_externals 0 example_massfunc.

(** The quadrature reports GSL_EMAXITER. *)
Definition example_maxiter : Externals := example_externals 11 example_massfunc.

(** The quadrature converges and the mass function raises an error. *)
Definition example_mf_error : Externals := example_externals 0 failing_massfunc.

Definition example_params : ccl_parameters := {| h := 0.7 |}.

Definition example_mem : mem :=
  {| cosmo := {| params := example_params; status_message := EmptyString |};
     status := 0 |}.

(** ** Conditions on the collaborators and on the memory *)

Section Conditions.

Context {E : Externals}.

(** [Q] holds of whatever any of the eight collaborators returns. *)
Definition for_all_outcomes (Q : outcome -> Prop) : Prop :=
  (forall p a, Q (Dv_BryanNorman p a)) /\
  (forall p m a d, Q (r_delta p m a d)) /\
  (forall p a, Q (ccl_growth_factor p a)) /\
  (forall p m a, Q (ccl_sigmaM p m a)) /\
  (forall p a l c, Q (ccl_rho_x p a l c)) /\
  (forall p m a d, Q (ccl_massfunc p m a d)) /\
  (forall p m a d, Q (ccl_halo_bias p m a d)) /\
  (forall p k a, Q (ccl_linear_matter_power p k a)).

(** The collaborator raises nothing. *)
Definition silent (o : outcome) : Prop := raised o = None.

(** What the collaborator raises is not the code 0 of success. *)
Definition raises_nonzero (o : outcome) : Prop :=
  forall e, raised o = Some e -> code e <> 0%Z.

(** None of the five error codes of this file is 0. *)
Definition codes_nonzero : Prop :=
  CCL_ERROR_CONC_DV <> 0%Z /\
  CCL_ERROR_HALOCONC <> 0%Z /\
  CCL_ERROR_HALOWIN <> 0%Z /\
  CCL_ERROR_ONE_HALO_INT <> 0%Z /\
  CCL_ERROR_TWO_HALO_INT <> 0%Z.

(** The bounds and tolerances both mass integrals hand to the quadrature. *)
Definition mass_quadrature : qag_run :=
  gsl_integration_qag (log10 HM_MMIN) (log10 HM_MMAX)
    HM_EPSABS HM_EPSREL HM_LIMIT HM_INT_METHOD.

End Conditions.

(** An error is latched in the status cell. *)
Definition latched (s : mem) : Prop := status s <> 0%Z.

(** The computation hands back, untouched, every memory that holds the
    parameters [p]. *)
Definition unchanged {A : Type} (p : ccl_parameters) (m : M A) : Prop :=
  forall s, params (cosmo s) = p -> snd (m s) = s.

(** The quadrature evaluates the integrand at least once. *)
Definition evaluates (t : qag_run) : bool :=
  match t with
  | qag_done _ _ _ => false
  | qag_eval _ _ => true
  end.

(** [E] with another linear power spectrum. *)
Definition with_linear_matter_power (E : Externals)
    (lp : ccl_parameters -> float -> float -> outcome) : Externals :=
  {| sin := @sin E;
     cos := @cos E;
     log := @log E;
     log10 := @log10 E;
     pow := @pow E;
     gsl_sf_Si := @gsl_sf_Si E;
     gsl_sf_Ci := @gsl_sf_Ci E;
     gsl_integration_qag := @gsl_integration_qag E;
     Dv_BryanNorman := @Dv_BryanNorman E;
     r_delta := @r_delta E;
     ccl_growth_factor := @ccl_growth_factor E;
     ccl_sigmaM := @ccl_sigmaM E;
     ccl_rho_x := @ccl_rho_x E;
     ccl_massfunc := @ccl_massfunc E;
     ccl_halo_bias := @ccl_halo_bias E;
     ccl_linear_matter_power := lp;
     HM_MMIN := @HM_MMIN E;
     HM_MMAX := @HM_MMAX E;
     HM_EPSABS := @HM_EPSABS E;
     HM_EPSREL := @HM_EPSREL E;
     HM_LIMIT := @HM_LIMIT E;
     HM_INT_METHOD := @HM_INT_METHOD E;
     CCL_ERROR_CONC_DV := @CCL_ERROR_CONC_DV E;
     CCL_ERROR_HALOCONC := @CCL_ERROR_HALOCONC E;
     CCL_ERROR_HALOWIN := @CCL_ERROR_HALOWIN E;
     CCL_ERROR_ONE_HALO_INT := @CCL_ERROR_ONE_HALO_INT E;
     CCL_ERROR_TWO_HALO_INT := @CCL_ERROR_TWO_HALO_INT E |}.

(** [E] with another quadrature procedure. *)
Definition with_quadrature (E : Externals)
    (qag : float -> float -> float -> float -> Z -> Z -> qag_run) : Externals :=
  {| sin := @sin E;
     cos := @cos E;
     log := @log E;
     log10 := @log10 E;
     pow := @pow E;
     gsl_sf_Si := @gsl_sf_Si E;
     gsl_sf_Ci := @gsl_sf_Ci E;
     gsl_integration_qag := qag;
     Dv_BryanNorman := @Dv_BryanNorman E;
     r_delta := @r_delta E;
     ccl_growth_factor := @ccl_growth_factor E;
     ccl_sigmaM := @ccl_sigmaM E;
     ccl_rho_x := @ccl_rho_x E;
     ccl_massfunc := @ccl_massfunc E;
     ccl_halo_bias := @ccl_halo_bias E;
     ccl_linear_matter_power := @ccl_linear_matter_power E;
     HM_MMIN := @HM_MMIN E;
     HM_MMAX := @HM_MMAX E;
     HM_EPSABS := @HM_EPSABS E;
     HM_EPSREL := @HM_EPSREL E;
     HM_LIMIT := @HM_LIMIT E;
     HM_INT_METHOD := @HM_INT_METHOD E;
     CCL_ERROR_CONC_DV := @CCL_ERROR_CONC_DV E;
     CCL_ERROR_HALOCONC := @CCL_ERROR_HALOCONC E;
     CCL_ERROR_HALOWIN := @CCL_ERROR_HALOWIN E;
     CCL_ERROR_ONE_HALO_INT := @CCL_ERROR_ONE_HALO_INT E;
     CCL_ERROR_TWO_HALO_INT := @CCL_ERROR_TWO_HALO_INT E |}.

(** A quadrature that reports success without evaluating the integrand. *)
Definition example_no_evaluation : Externals :=
  with_quadrature example_ok (fun a b epsabs epsrel limit key => qag_done 0 0 0).

Definition power_failure : ccl_error :=
  {| code := 1030; message := "ccl_linear_matter_power(): failure" |}.

(** A linear power spectrum that raises an error and returns NaN. *)
Definition failing_linear_power (p : ccl_parameters) (k a : float) : outcome :=
  {| value := NAN; raised := Some power_failure |}.

(** Every quadrature reports GSL_EMAXITER and the linear power raises. *)
Definition example_power_error : Externals :=
  with_linear_matter_power example_maxiter failing_linear_power.

(** A memory in which an earlier call has left an error. *)
Definition example_latched_mem : mem :=
  {| cosmo := {| params := example_params;
                 status_message := "an earlier failure" |};
     status := 1028 |}.

(** ** Lemmas on state passing *)

Lemma bind_run {A B : Type} (m : M A) (f : A -> M B) (s : mem) :
  bind m f s = f (fst (m s)) (snd (m s)).
Proof. unfold bind. destruct (m s); reflexivity. Qed.

Lemma call_fst (f : ccl_parameters -> outcome) (s : mem) :
  fst (call f s) = value (f (params (cosmo s))).
Proof. reflexivity. Qed.

Lemma call_params (f : ccl_parameters -> outcome) (s : mem) :
  params (cosmo (snd (call f s))) = params (cosmo s).
Proof. unfold call; simpl. destruct (raised _); reflexivity. Qed.

Lemma stable_ret {A : Type} (x : A) : stable (ret x).
Proof. split; intros s; intros; reflexivity. Qed.

Lemma stable_bind {A B : Type} (m : M A) (f : A -> M B) :
  stable m -> (forall x, stable (f x)) -> stable (bind m f).
Proof.
  intros [Hk Hb] Hf. split.
  - intros s. rewrite bind_run.
    destruct (Hf (fst (m s))) as [Hfk _]. rewrite Hfk. apply Hk.
  - intros s s' Hs. rewrite !bind_run.
    rewrite (Hb s s' Hs).
    destruct (Hf (fst (m s'))) as [_ Hfb]. apply Hfb.
    unfold same_params. rewrite !Hk. exact Hs.
Qed.

Lemma stable_call (f : ccl_parameters -> outcome) : stable (call f).
Proof.
  split.
  - intros s. unfold call; simpl. destruct (raised _); reflexivity.
  - intros s s' Hs. unfold call; simpl. unfold same_params in Hs.
    rewrite Hs. reflexivity.
Qed.

Lemma stable_set_status (c : Z) : stable (set_status c).
Proof. split; intros s; intros; reflexivity. Qed.

Lemma stable_strcpy_status_message (msg : string) :
  stable (strcpy_status_message msg).
Proof. split; intros s; intros; reflexivity. Qed.

Lemma stable_params_h : stable params_h.
Proof.
  split; intros s; [reflexivity|].
  intros s' Hs. unfold params_h; simpl. unfold same_params in Hs.
  rewrite Hs. reflexivity.
Qed.

Lemma stable_ccl_raise_exception (err : Z) (msg : string) :
  stable (ccl_raise_exception err msg).
Proof. apply stable_ret. Qed.

Lemma stable_ccl_raise_gsl_warning (err : Z) (msg : string) :
  stable (ccl_raise_gsl_warning err msg).
Proof. apply stable_ret. Qed.

Lemma stable_if {A : Type} (b : bool) (m1 m2 : M A) :
  stable m1 -> stable m2 -> stable (if b then m1 else m2).
Proof. destruct b; auto. Qed.

Lemma stable_with_local_status {A : Type} (init : Z) (m : M A) :
  stable m -> stable (with_local_status init m).
Proof.
  intros [Hk Hb]. split.
  - intros s. unfold with_local_status.
    specialize (Hk {| cosmo := cosmo s; status := init |}).
    destruct (m _); simpl in *. exact Hk.
  - intros s s' Hs. unfold with_local_status.
    specialize (Hb {| cosmo := cosmo s; status := init |}
                   {| cosmo := cosmo s'; status := init |} Hs).
    destruct (m _), (m _); simpl in *. exact Hb.
Qed.

Lemma stable_run_qag (t : qag_run) (F : float -> M float) :
  (forall x, stable (F x)) -> stable (run_qag t F).
Proof.
  intros HF. induction t as [q r e | x next IH]; simpl.
  - apply stable_ret.
  - apply stable_bind; [apply HF | intros y; apply IH].
Qed.

Lemma stable_value {A : Type} (m : M A) (s : mem) :
  stable m -> fst (m s) = value_of m (params (cosmo s)).
Proof. intros [_ Hb]. apply Hb. reflexivity. Qed.

Lemma stable_params {A : Type} (m : M A) (s : mem) :
  stable m -> params (cosmo (snd (m s))) = params (cosmo s).
Proof. intros [Hk _]. apply Hk. Qed.

Create HintDb stable_db.

#[export] Hint Resolve stable_ret stable_call stable_set_status
  stable_strcpy_status_message stable_params_h stable_ccl_raise_exception
  stable_ccl_raise_gsl_warning stable_with_local_status stable_run_qag
  : stable_db.

Ltac stable_step :=
  first [ solve [auto with stable_db]
        | apply stable_bind; [| intros ?]
        | apply stable_if ].

Ltac stable_tac := repeat stable_step.

Section Stability.

Context {E : Externals}.

Lemma stable_u_nfw_c (c halomass k a : float) : stable (u_nfw_c c halomass k a).
Proof. unfold u_nfw_c. stable_tac. Qed.

#[local] Hint Resolve stable_u_nfw_c : stable_db.

Lemma stable_ccl_halo_concentration (halomass a odelta : float)
    (label : ccl_conc_label) :
  stable (ccl_halo_concentration halomass a odelta label).
Proof. destruct label; simpl; stable_tac. Qed.

#[local] Hint Resolve stable_ccl_halo_concentration : stable_db.

Lemma stable_window_function (m k a odelta : float) (label : ccl_win_label) :
  stable (window_function m k a odelta label).
Proof. destruct label; simpl; stable_tac. Qed.

#[local] Hint Resolve stable_window_function : stable_db.

Lemma stable_one_halo_integrand (p : Int_one_halo_Par) (x : float) :
  stable (one_halo_integrand p x).
Proof. unfold one_halo_integrand. stable_tac. Qed.

Lemma stable_two_halo_integrand (p : Int_two_halo_Par) (x : float) :
  stable (two_halo_integrand p x).
Proof. unfold two_halo_integrand. stable_tac. Qed.

#[local] Hint Resolve stable_one_halo_integrand stable_two_halo_integrand
  : stable_db.

Lemma stable_one_halo_qag (k a : float) : stable (one_halo_qag k a).
Proof. unfold one_halo_qag. auto with stable_db. Qed.

Lemma stable_two_halo_qag (k a : float) : stable (two_halo_qag k a).
Proof. unfold two_halo_qag. auto with stable_db. Qed.

Lemma stable_one_halo_integral (k a : float) : stable (one_halo_integral k a).
Proof.
  unfold one_halo_integral. apply stable_bind.
  - apply stable_one_halo_qag.
  - intros [[q r] e]. stable_tac.
Qed.

Lemma stable_two_halo_integral (k a : float) : stable (two_halo_integral k a).
Proof.
  unfold two_halo_integral. apply stable_bind.
  - apply stable_two_halo_qag.
  - intros [[q r] e]. stable_tac.
Qed.

#[local] Hint Resolve stable_one_halo_integral stable_two_halo_integral
  : stable_db.

Lemma stable_ccl_twohalo_matter_power (k a : float) :
  stable (ccl_twohalo_matter_power k a).
Proof. unfold ccl_twohalo_matter_power. stable_tac. Qed.

Lemma stable_ccl_onehalo_matter_power (k a : float) :
  stable (ccl_onehalo_matter_power k a).
Proof. apply stable_one_halo_integral. Qed.

#[local] Hint Resolve stable_ccl_twohalo_matter_power
  stable_ccl_onehalo_matter_power : stable_db.

Lemma stable_ccl_halomodel_matter_power (k a : float) :
  stable (ccl_halomodel_matter_power k a).
Proof. unfold ccl_halomodel_matter_power. stable_tac. Qed.

Lemma stable_ccl_halomodel_matter_power_rl (k a : float) :
  stable (ccl_halomodel_matter_power_rl k a).
Proof. unfold ccl_halomodel_matter_power_rl. stable_tac. Qed.

End Stability.

#[export] Hint Resolve stable_u_nfw_c stable_ccl_halo_concentration
  stable_window_function stable_one_halo_integrand stable_two_halo_integrand
  stable_one_halo_qag stable_two_halo_qag
  stable_one_halo_integral stable_two_halo_integral
  stable_ccl_twohalo_matter_power stable_ccl_onehalo_matter_power
  stable_ccl_halomodel_matter_power : stable_db.

(** Brings every value to the form [value_of m p] and every parameter
    record to the one of the initial memory. *)
Ltac to_values :=
  repeat rewrite bind_run;
  repeat first [ rewrite call_fst
               | rewrite call_params
               | rewrite stable_params by auto with stable_db ].

(** ** Floating-point facts *)

Lemma is_nan_false_eqb (x : float) : is_nan x = false -> (x =? x) = true.
Proof. unfold is_nan. destruct (x =? x); [reflexivity | discriminate]. Qed.

Lemma is_nan_true_eqb (x : float) : is_nan x = true -> (x =? x) = false.
Proof. unfold is_nan. destruct (x =? x); [discriminate | reflexivity]. Qed.

Lemma eqb_false_neq (x y : float) :
  (x =? y) = false -> is_nan x = false -> x <> y.
Proof.
  intros Hxy Hx Heq. subst y. rewrite (is_nan_false_eqb _ Hx) in Hxy.
  discriminate.
Qed.

Lemma add_nan_l (x : float) : nan + x = nan.
Proof.
  apply Prim2SF_inj. rewrite add_spec.
  change (Prim2SF nan) with S754_nan. reflexivity.
Qed.

Lemma add_nan_r (x : float) : x + nan = nan.
Proof.
  apply Prim2SF_inj. rewrite add_spec.
  change (Prim2SF nan) with S754_nan. destruct (Prim2SF x); reflexivity.
Qed.

Lemma sub_nan_r (x : float) : x - nan = nan.
Proof.
  apply Prim2SF_inj. rewrite sub_spec.
  change (Prim2SF nan) with S754_nan. destruct (Prim2SF x); reflexivity.
Qed.

Lemma mul_nan_l (x : float) : nan * x = nan.
Proof.
  apply Prim2SF_inj. rewrite mul_spec.
  change (Prim2SF nan) with S754_nan. reflexivity.
Qed.

Lemma mul_nan_r (x : float) : x * nan = nan.
Proof.
  apply Prim2SF_inj. rewrite mul_spec.
  change (Prim2SF nan) with S754_nan. destruct (Prim2SF x); reflexivity.
Qed.

Lemma div_nan_l (x : float) : nan / x = nan.
Proof.
  apply Prim2SF_inj. rewrite div_spec.
  change (Prim2SF nan) with S754_nan. reflexivity.
Qed.

(** ** The concentration model *)

Section Concentration.

Context {E : Externals}.

(** C5.  With the Bhattacharya relation the routine takes its error path
    exactly when the overdensity compares unequal to 200: it then stores the
    ModelMismatch code and message and returns NaN.  When the overdensity
    compares equal to 200 it returns 9 nu^-0.29 (g(a)/g(1))^1.15 with
    nu = 1.686 / sigma(M,a), and the memory is what the three collaborator
    calls leave. *)
Theorem bhattacharya_concentration_spec (halomass a odelta : float) (s : mem) :
  ((odelta =? 200) = false ->
     ccl_halo_concentration halomass a odelta ccl_bhattacharya2011 s
     = (NAN, raise_error (model_mismatch msg_bhattacharya) s)) /\
  ((odelta =? 200) = true ->
     ccl_halo_concentration halomass a odelta ccl_bhattacharya2011 s
     = (bhattacharya_concentration (params (cosmo s)) halomass a,
        snd ((call (fun p => ccl_growth_factor p a) ;;
              call (fun p => ccl_growth_factor p 1) ;;
              call (fun p => ccl_sigmaM p halomass a)) s))).
Proof.
  split; intros H; unfold ccl_halo_concentration; rewrite H; cbn [negb].
  - reflexivity.
  - rewrite !bind_run, !call_fst, !call_params. reflexivity.
Qed.

Lemma duffy_run (halomass a odelta : float) (s : mem) :
  ccl_halo_concentration halomass a odelta ccl_duffy2008_virial s
  = let s1 := snd (call (fun p => Dv_BryanNorman p a) s) in
    if odelta =? virial_overdensity (params (cosmo s)) a
    then (duffy_concentration (params (cosmo s)) halomass a, s1)
    else (NAN, raise_error (model_mismatch msg_duffy) s1).
Proof.
  unfold ccl_halo_concentration, virial_overdensity. rewrite bind_run, call_fst.
  cbv zeta. destruct (odelta =? _); cbn [negb].
  - rewrite bind_run. unfold params_h, ret, duffy_concentration. cbn [fst snd].
    rewrite call_params. reflexivity.
  - reflexivity.
Qed.

(** C6.  With the Duffy virial relation the routine takes its error path
    exactly when the overdensity compares unequal to the value of the
    virial-overdensity collaborator at the scale factor; otherwise it
    returns A (M/M_pivot)^B a^-C with A = 7.85, B = -0.081, C = -0.71 and
    M_pivot = 2e12 / h. *)
Theorem duffy_concentration_spec (halomass a odelta : float) (s : mem) :
  let s1 := snd (call (fun p => Dv_BryanNorman p a) s) in
  ((odelta =? virial_overdensity (params (cosmo s)) a) = false ->
     ccl_halo_concentration halomass a odelta ccl_duffy2008_virial s
     = (NAN, raise_error (model_mismatch msg_duffy) s1)) /\
  ((odelta =? virial_overdensity (params (cosmo s)) a) = true ->
     ccl_halo_concentration halomass a odelta ccl_duffy2008_virial s
     = (duffy_concentration (params (cosmo s)) halomass a, s1)).
Proof.
  intros s1. split; intros H; rewrite duffy_run; cbv zeta; rewrite H;
    reflexivity.
Qed.

End Concentration.

(** The two branches of C5 at overdensities 180 and 200. *)
Lemma bhattacharya_concentration_spec_witness :
  @ccl_halo_concentration example_ok 1e12 1 180 ccl_bhattacharya2011 example_mem
  = (NAN, {| cosmo := {| params := example_params;
                         status_message := msg_bhattacharya |};
             status := 1049 |}) /\
  @ccl_halo_concentration example_ok 1e12 1 200 ccl_bhattacharya2011 example_mem
  = (@bhattacharya_concentration example_ok example_params 1e12 1, example_mem).
Proof.
  split.
  - apply (proj1 (@bhattacharya_concentration_spec example_ok 1e12 1 180
                    example_mem)).
    reflexivity.
  - apply (proj2 (@bhattacharya_concentration_spec example_ok 1e12 1 200
                    example_mem)).
    reflexivity.
Defined.

(** The two branches of C6 at the present epoch: an overdensity of 200 is
    not the virial one, the collaborator's own value is. *)
Lemma duffy_concentration_spec_witness :
  @ccl_halo_concentration example_ok 1e12 1 200 ccl_duffy2008_virial example_mem
  = (NAN, {| cosmo := {| params := example_params;
                         status_message := msg_duffy |};
             status := 1049 |}) /\
  @ccl_halo_concentration example_ok 1e12 1
     (@virial_overdensity example_ok example_params 1)
     ccl_duffy2008_virial example_mem
  = (@duffy_concentration example_ok example_params 1e12 1, example_mem).
Proof.
  split.
  - apply (proj1 (@duffy_concentration_spec example_ok 1e12 1 200 example_mem)).
    vm_compute. reflexivity.
  - apply (proj2 (@duffy_concentration_spec example_ok 1e12 1 _ example_mem)).
    vm_compute. reflexivity.
Defined.

(** ** The profile transform and the window *)

Section Profile.

Context {E : Externals}.

(** Whenever the test [k == 0.] holds the routine returns 1 after its one
    call of the virial-overdensity collaborator. *)
Lemma u_nfw_c_special_case (c halomass k a : float) (s : mem) :
  (k =? 0) = true ->
  u_nfw_c c halomass k a s = (1, snd (call (fun p => Dv_BryanNorman p a) s)).
Proof.
  intros Hk. unfold u_nfw_c. rewrite bind_run, Hk. reflexivity.
Qed.

(** C7.  At wavenumber 0 the profile transform is exactly 1, whatever the
    concentration (positive or not), the mass, the scale factor and the
    memory.  The general expression is bypassed: the virial radius is not
    asked for, and the memory is what the call of the virial-overdensity
    collaborator leaves. *)
Theorem u_nfw_c_zero_wavenumber (c halomass a : float) (s : mem) :
  fst (u_nfw_c c halomass 0 a s) = 1 /\
  snd (u_nfw_c c halomass 0 a s) = snd (call (fun p => Dv_BryanNorman p a) s).
Proof.
  rewrite (u_nfw_c_special_case c halomass 0 a s) by reflexivity.
  split; reflexivity.
Qed.

(** The test [k == 0.] also holds for the negative zero. *)
Lemma u_nfw_c_negative_zero (c halomass a : float) (s : mem) :
  fst (u_nfw_c c halomass (-0) a s) = 1.
Proof.
  rewrite (u_nfw_c_special_case c halomass (-0) a s) by reflexivity.
  reflexivity.
Qed.

Lemma window_function_value (m k a odelta : float) (s : mem) :
  fst (window_function m k a odelta ccl_nfw s)
  = m * nfw_transform (params (cosmo s))
          (value_of (ccl_halo_concentration m a odelta ccl_duffy2008_virial)
             (params (cosmo s))) m k a
    / value (ccl_rho_x (params (cosmo s)) 1 ccl_species_m_label 1).
Proof.
  unfold window_function. to_values. unfold ret; cbn [fst].
  rewrite (stable_value (ccl_halo_concentration _ _ _ _)) by auto with stable_db.
  rewrite (stable_value (u_nfw_c _ _ _ _)) by auto with stable_db.
  to_values. reflexivity.
Qed.

(** C4, as the code has it.  The window is m U / rho_m, where U is the
    profile transform at the Duffy concentration and rho_m is what the
    density collaborator returns for matter at scale factor 1 with the
    comoving flag set, whatever the requested scale factor [a]. *)
Theorem window_function_spec (m k a odelta : float) (s : mem) :
  let p := params (cosmo s) in
  let c := value_of (ccl_halo_concentration m a odelta ccl_duffy2008_virial) p in
  fst (window_function m k a odelta ccl_nfw s)
  = m * nfw_transform p c m k a
    / value (ccl_rho_x p 1 ccl_species_m_label 1).
Proof. intros p c. apply window_function_value. Qed.

End Profile.

(** C4 as the specification words it fails: at k = 0 and a = 1/2 the window
    of a 1e12 Msun halo is m / rho_m(1), and the density at a = 1/2 is eight
    times as large. *)
Lemma window_function_density_counterexample :
  let p := example_params in
  let Delta_v := @virial_overdensity example_ok p 0.5 in
  let c := value_of
             (@ccl_halo_concentration example_ok 1e12 0.5 Delta_v
                ccl_duffy2008_virial) p in
  fst (@window_function example_ok 1e12 0 0.5 Delta_v ccl_nfw example_mem)
  <> 1e12 * @nfw_transform example_ok p c 1e12 0 0.5
     / value (@ccl_rho_x example_ok p 0.5 ccl_species_m_label 1).
Proof.
  intros p Delta_v c. apply eqb_false_neq; vm_compute; reflexivity.
Qed.

(** ** The mass integrals *)

Lemma with_local_status_status {A : Type} (init : Z) (m : M A) (s : mem) :
  status (snd (with_local_status init m s)) = status s.
Proof. unfold with_local_status. destruct (m _); reflexivity. Qed.

Section Integrals.

Context {E : Externals}.

Lemma one_halo_integral_unfold (k a : float) (s : mem) :
  one_halo_integral k a s
  = let r := value_of (one_halo_qag k a) (params (cosmo s)) in
    let s1 := snd (one_halo_qag k a s) in
    if (qagstatus_of r =? GSL_SUCCESS)%Z then (result_of r, s1)
    else (NAN, raise_error one_halo_failure s).
Proof.
  unfold one_halo_integral. rewrite bind_run. fold (one_halo_qag k a).
  rewrite (stable_value (one_halo_qag k a)) by auto with stable_db.
  pose proof (stable_params (one_halo_qag k a) s (stable_one_halo_qag k a)) as Hp.
  cbv zeta.
  set (r := value_of (one_halo_qag k a) (params (cosmo s))).
  clearbody r. destruct r as [[q x] e].
  unfold qagstatus_of, result_of; cbn [fst snd].
  destruct (q =? GSL_SUCCESS)%Z; cbn [negb].
  - reflexivity.
  - rewrite !bind_run. unfold ret, raise_error, one_halo_failure; cbn.
    rewrite Hp. reflexivity.
Qed.

Lemma two_halo_integral_unfold (k a : float) (s : mem) :
  two_halo_integral k a s
  = let r := value_of (two_halo_qag k a) (params (cosmo s)) in
    let s1 := snd (two_halo_qag k a s) in
    if (qagstatus_of r =? GSL_SUCCESS)%Z then (result_of r, s1)
    else (NAN, raise_error two_halo_failure s).
Proof.
  unfold two_halo_integral. rewrite bind_run. fold (two_halo_qag k a).
  rewrite (stable_value (two_halo_qag k a)) by auto with stable_db.
  pose proof (stable_params (two_halo_qag k a) s (stable_two_halo_qag k a)) as Hp.
  cbv zeta.
  set (r := value_of (two_halo_qag k a) (params (cosmo s))).
  clearbody r. destruct r as [[q x] e].
  unfold qagstatus_of, result_of; cbn [fst snd].
  destruct (q =? GSL_SUCCESS)%Z; cbn [negb].
  - reflexivity.
  - rewrite !bind_run. unfold ret, raise_error, two_halo_failure; cbn.
    rewrite Hp. reflexivity.
Qed.

(** C8.  Each mass integral takes its failure path exactly when the
    quadrature over [log10(M_min), log10(M_max)] reports a status other
    than GSL_SUCCESS: it then stores the IntegrationFailure code and message
    and returns NaN.  When the quadrature succeeds the routine returns the
    quadrature's result as it is, no factor applied, and the caller's status
    is what it was. *)
Theorem mass_integrals_spec (k a : float) (s : mem) :
  let p := params (cosmo s) in
  let r1 := value_of (one_halo_qag k a) p in
  let r2 := value_of (two_halo_qag k a) p in
  (qagstatus_of r1 <> GSL_SUCCESS ->
     one_halo_integral k a s = (NAN, raise_error one_halo_failure s)) /\
  (qagstatus_of r1 = GSL_SUCCESS ->
     fst (one_halo_integral k a s) = result_of r1 /\
     status (snd (one_halo_integral k a s)) = status s) /\
  (qagstatus_of r2 <> GSL_SUCCESS ->
     two_halo_integral k a s = (NAN, raise_error two_halo_failure s)) /\
  (qagstatus_of r2 = GSL_SUCCESS ->
     fst (two_halo_integral k a s) = result_of r2 /\
     status (snd (two_halo_integral k a s)) = status s).
Proof.
  intros p r1 r2.
  rewrite one_halo_integral_unfold, two_halo_integral_unfold.
  fold p r1 r2. cbv zeta.
  split; [| split; [| split]]; intros H.
  - apply Z.eqb_neq in H. rewrite H. reflexivity.
  - rewrite H. split; [reflexivity | apply with_local_status_status].
  - apply Z.eqb_neq in H. rewrite H. reflexivity.
  - rewrite H. split; [reflexivity | apply with_local_status_status].
Qed.

(** C9.  In every call of either integrand, from whatever memory, the
    window, the mass function and the halo bias are evaluated at one
    overdensity: the value of the virial-overdensity collaborator at the
    scale factor of the evaluation.  The call leaves the parameters as they
    are, so the next call computes the same overdensity. *)
Theorem integrands_share_overdensity (k a log10mass : float) (s : mem) :
  let p := params (cosmo s) in
  let halomass := pow 10 log10mass in
  let Delta_v := virial_overdensity p a in
  let wk := window_value p halomass k a Delta_v in
  let dn_dlogM := value (ccl_massfunc p halomass a Delta_v) in
  let b := value (ccl_halo_bias p halomass a Delta_v) in
  let s1 := snd (one_halo_integrand {| oh_k := k; oh_a := a |} log10mass s) in
  let s2 := snd (two_halo_integrand {| th_k := k; th_a := a |} log10mass s) in
  fst (one_halo_integrand {| oh_k := k; oh_a := a |} log10mass s)
    = dn_dlogM * pow wk 2 /\
  fst (two_halo_integrand {| th_k := k; th_a := a |} log10mass s)
    = b * dn_dlogM * wk /\
  virial_overdensity (params (cosmo s1)) a = Delta_v /\
  virial_overdensity (params (cosmo s2)) a = Delta_v.
Proof.
  intros p halomass Delta_v wk dn_dlogM b s1 s2.
  repeat split.
  - unfold one_halo_integrand; cbn [oh_k oh_a]. to_values.
    unfold ret; cbn [fst].
    rewrite (stable_value (window_function _ _ _ _ _)) by auto with stable_db.
    to_values. reflexivity.
  - unfold two_halo_integrand; cbn [th_k th_a]. to_values.
    unfold ret; cbn [fst].
    rewrite (stable_value (window_function _ _ _ _ _)) by auto with stable_db.
    to_values. reflexivity.
  - unfold s1. rewrite stable_params by auto with stable_db. reflexivity.
  - unfold s2. rewrite stable_params by auto with stable_db. reflexivity.
Qed.

End Integrals.

(** The four cases of C8: the quadrature of the example reports
    GSL_EMAXITER or converges, for either integral. *)
Lemma mass_integrals_spec_witness :
  (@one_halo_integral example_maxiter 0.1 1 example_mem
   = (NAN, raise_error (@one_halo_failure example_maxiter) example_mem)) /\
  (fst (@one_halo_integral example_ok 0.1 1 example_mem)
   = result_of (value_of (@one_halo_qag example_ok 0.1 1) example_params) /\
   status (snd (@one_halo_integral example_ok 0.1 1 example_mem)) = 0%Z) /\
  (@two_halo_integral example_maxiter 0.1 1 example_mem
   = (NAN, raise_error (@two_halo_failure example_maxiter) example_mem)) /\
  (fst (@two_halo_integral example_ok 0.1 1 example_mem)
   = result_of (value_of (@two_halo_qag example_ok 0.1 1) example_params) /\
   status (snd (@two_halo_integral example_ok 0.1 1 example_mem)) = 0%Z).
Proof.
  pose proof (@mass_integrals_spec example_maxiter 0.1 1 example_mem) as Hf.
  pose proof (@mass_integrals_spec example_ok 0.1 1 example_mem) as Hs.
  cbv zeta in Hf, Hs.
  destruct Hf as (Hf1 & _ & Hf2 & _). destruct Hs as (_ & Hs1 & _ & Hs2).
  split; [| split; [| split]].
  - apply Hf1. vm_compute. discriminate.
  - apply Hs1. vm_compute. reflexivity.
  - apply Hf2. vm_compute. discriminate.
  - apply Hs2. vm_compute. reflexivity.
Defined.

(** ** The power spectrum terms *)

Section Power.

Context {E : Externals}.

Lemma twohalo_power_value (k a : float) (s : mem) :
  fst (ccl_twohalo_matter_power k a s)
  = value (ccl_linear_matter_power (params (cosmo s)) k a)
    * corrected_mass_integral (params (cosmo s)) k a
    * corrected_mass_integral (params (cosmo s)) k a.
Proof.
  unfold ccl_twohalo_matter_power. to_values.
  unfold ret; cbn [fst].
  rewrite !(stable_value (two_halo_integral _ _)) by auto with stable_db.
  rewrite !(stable_value (window_function _ _ _ _ _)) by auto with stable_db.
  to_values. reflexivity.
Qed.

Lemma halomodel_power_value (k a : float) (s : mem) :
  fst (ccl_halomodel_matter_power k a s)
  = fst (ccl_twohalo_matter_power k a s) + fst (ccl_onehalo_matter_power k a s).
Proof.
  unfold ccl_halomodel_matter_power. to_values. unfold ret; cbn [fst].
  rewrite !(stable_value (ccl_onehalo_matter_power _ _)) by auto with stable_db.
  to_values. reflexivity.
Qed.

Lemma halomodel_power_rl_value (k a : float) (s : mem) :
  fst (ccl_halomodel_matter_power_rl k a s)
  = fst (ccl_twohalo_matter_power k a s) + fst (ccl_onehalo_matter_power k a s).
Proof.
  unfold ccl_halomodel_matter_power_rl. to_values. unfold ret; cbn [fst].
  rewrite !(stable_value (ccl_twohalo_matter_power _ _)) by auto with stable_db.
  to_values. reflexivity.
Qed.

(** C1.  The two-halo term is the linear power at (k, a) times the corrected
    mass integral I2h, twice: P_lin * I2h * I2h as C multiplies, left to
    right.  I2h = two_halo(k) + (1 - two_halo(0)) W(M_min,k,a) / W(M_min,0,a),
    the window taken at the virial overdensity. *)
Theorem twohalo_matter_power_spec (k a : float) (s : mem) :
  let p := params (cosmo s) in
  fst (ccl_twohalo_matter_power k a s)
  = value (ccl_linear_matter_power p k a)
    * corrected_mass_integral p k a * corrected_mass_integral p k a.
Proof. intros p. apply twohalo_power_value. Qed.

(** C3.  The total is the floating-point sum of the two-halo term and the
    one-halo term, each as it comes out when computed alone from the same
    memory; this holds in either order of evaluation of the two calls. *)
Theorem halomodel_matter_power_is_sum (k a : float) (s : mem) :
  fst (ccl_halomodel_matter_power k a s)
  = fst (ccl_twohalo_matter_power k a s) + fst (ccl_onehalo_matter_power k a s)
  /\
  fst (ccl_halomodel_matter_power_rl k a s)
  = fst (ccl_twohalo_matter_power k a s) + fst (ccl_onehalo_matter_power k a s).
Proof.
  split; [apply halomodel_power_value | apply halomodel_power_rl_value].
Qed.

Lemma two_halo_value_nan (p : ccl_parameters) (k a : float) :
  two_halo_converges p k a = false -> two_halo_value p k a = NAN.
Proof.
  unfold two_halo_converges, two_halo_value, value_of. intros H.
  rewrite two_halo_integral_unfold. cbv zeta.
  change (params (cosmo (mem_of p))) with p.
  unfold value_of. rewrite H. reflexivity.
Qed.

Lemma corrected_mass_integral_nan (p : ccl_parameters) (k a : float) :
  two_halo_converges p k a = false \/ two_halo_converges p 0 a = false ->
  corrected_mass_integral p k a = NAN.
Proof.
  unfold corrected_mass_integral, NAN. intros [H | H]; cbv zeta.
  - rewrite (two_halo_value_nan _ _ _ H). apply add_nan_l.
  - rewrite (two_halo_value_nan _ _ _ H). unfold NAN.
    rewrite sub_nan_r, mul_nan_l, div_nan_l. apply add_nan_r.
Qed.

(** What a failed quadrature does to the value of each entry point, how
    the total chains its two calls, and that the parameters stay. *)
Lemma entry_points_on_failure (k a : float) (s : mem) :
  let p := params (cosmo s) in
  (one_halo_converges p k a = false ->
     ccl_onehalo_matter_power k a s = (NAN, raise_error one_halo_failure s)) /\
  (two_halo_converges p k a = false \/ two_halo_converges p 0 a = false ->
     fst (ccl_twohalo_matter_power k a s) = NAN) /\
  (one_halo_converges p k a = false \/
   two_halo_converges p k a = false \/ two_halo_converges p 0 a = false ->
     fst (ccl_halomodel_matter_power k a s) = NAN /\
     fst (ccl_halomodel_matter_power_rl k a s) = NAN) /\
  (one_halo_converges p k a = false ->
     snd (ccl_halomodel_matter_power k a s) = raise_error one_halo_failure s) /\
  snd (ccl_halomodel_matter_power k a s)
    = snd (ccl_onehalo_matter_power k a (snd (ccl_twohalo_matter_power k a s))) /\
  snd (ccl_halomodel_matter_power_rl k a s)
    = snd (ccl_twohalo_matter_power k a (snd (ccl_onehalo_matter_power k a s))) /\
  params (cosmo (snd (ccl_onehalo_matter_power k a s))) = p /\
  params (cosmo (snd (ccl_twohalo_matter_power k a s))) = p /\
  params (cosmo (snd (ccl_halomodel_matter_power k a s))) = p /\
  params (cosmo (snd (ccl_halomodel_matter_power_rl k a s))) = p.
Proof.
  intros p.
  assert (Hone : one_halo_converges p k a = false ->
            forall s', params (cosmo s') = p ->
            ccl_onehalo_matter_power k a s' = (NAN, raise_error one_halo_failure s')).
  { intros H s' Hs'. unfold ccl_onehalo_matter_power.
    rewrite one_halo_integral_unfold. cbv zeta. rewrite Hs'.
    unfold one_halo_converges in H. rewrite H. reflexivity. }
  assert (Htwo : two_halo_converges p k a = false \/
                 two_halo_converges p 0 a = false ->
                 fst (ccl_twohalo_matter_power k a s) = NAN).
  { intros H. rewrite twohalo_power_value. fold p.
    rewrite (corrected_mass_integral_nan _ _ _ H). apply mul_nan_r. }
  assert (Hrun : snd (ccl_halomodel_matter_power k a s)
            = snd (ccl_onehalo_matter_power k a
                     (snd (ccl_twohalo_matter_power k a s)))).
  { unfold ccl_halomodel_matter_power. rewrite !bind_run. reflexivity. }
  assert (Hp2 : params (cosmo (snd (ccl_twohalo_matter_power k a s))) = p).
  { apply stable_params; auto with stable_db. }
  split; [| split; [| split; [| split; [| split; [| split]]]]].
  - intros H. apply Hone; [exact H | reflexivity].
  - exact Htwo.
  - intros H. rewrite halomodel_power_value, halomodel_power_rl_value.
    destruct H as [H | H].
    + rewrite (Hone H s eq_refl). split; apply add_nan_r.
    + rewrite (Htwo H). split; apply add_nan_l.
  - intros H. rewrite Hrun, (Hone H _ Hp2). cbn [snd].
    unfold raise_error. rewrite Hp2. reflexivity.
  - exact Hrun.
  - unfold ccl_halomodel_matter_power_rl. rewrite !bind_run. reflexivity.
  - repeat split; try exact Hp2; apply stable_params;
      auto using stable_ccl_halomodel_matter_power_rl with stable_db.
Qed.

End Power.

(** C2 as the specification words it fails.  Every quadrature reports
    GSL_EMAXITER.  The two-halo term, called first, leaves its
    IntegrationFailure code; the total does not stop there: the one-halo
    term runs and the caller receives its code and message.  In the other
    order of evaluation it is the two-halo code that replaces the one-halo
    code. *)
Lemma fail_fast_counterexample :
  let first := snd (@ccl_twohalo_matter_power example_maxiter 0.1 1 example_mem) in
  let final := snd (@ccl_halomodel_matter_power example_maxiter 0.1 1 example_mem) in
  let first_rl := snd (@ccl_onehalo_matter_power example_maxiter 0.1 1 example_mem) in
  let final_rl := snd (@ccl_halomodel_matter_power_rl example_maxiter 0.1 1 example_mem) in
  (status first = @CCL_ERROR_TWO_HALO_INT example_maxiter /\
   status final = @CCL_ERROR_ONE_HALO_INT example_maxiter /\
   status_message (cosmo final) = msg_one_halo_int /\
   final <> first) /\
  (status first_rl = @CCL_ERROR_ONE_HALO_INT example_maxiter /\
   status final_rl = @CCL_ERROR_TWO_HALO_INT example_maxiter /\
   status_message (cosmo final_rl) = msg_two_halo_int /\
   final_rl <> first_rl).
Proof.
  vm_compute. repeat split; discriminate.
Qed.

(** An error that the mass function raises inside the one-halo integrand
    goes to the local status cell of the integral.  When the quadrature
    converges the caller's status is still 0 and the value is a number; only
    the message buffer shows the error. *)
Lemma integrand_error_example :
  let inside := snd (@one_halo_integrand example_mf_error
                       {| oh_k := 0.1; oh_a := 1 |} 12 example_mem) in
  let r := @ccl_onehalo_matter_power example_mf_error 0.1 1 example_mem in
  status inside = 1034%Z /\
  status (snd r) = 0%Z /\
  is_nan (fst r) = false /\
  status_message (cosmo (snd r)) = "ccl_massfunc(): failure".
Proof. vm_compute. repeat split. Qed.

(** ** The guard of the Duffy relation *)

Lemma preserves_ret {A : Type} (P : mem -> Prop) (x : A) : preserves P (ret x).
Proof. intros s Hs. exact Hs. Qed.

Lemma preserves_bind {A B : Type} (P : mem -> Prop) (m : M A) (f : A -> M B) :
  preserves P m ->
  (forall s, P s -> preserves P (f (fst (m s)))) ->
  preserves P (bind m f).
Proof.
  intros Hm Hf s Hs. rewrite bind_run. apply (Hf s Hs). apply Hm. exact Hs.
Qed.

Lemma preserves_run_qag (P : mem -> Prop) (t : qag_run) (F : float -> M float) :
  (forall x, preserves P (F x)) -> preserves P (run_qag t F).
Proof.
  intros HF. induction t as [q r e | x next IH]; simpl.
  - apply preserves_ret.
  - apply preserves_bind; [apply HF | intros s _; apply IH].
Qed.

Lemma msg_one_halo_int_neq : msg_one_halo_int <> msg_duffy.
Proof. vm_compute. discriminate. Qed.

Lemma msg_two_halo_int_neq : msg_two_halo_int <> msg_duffy.
Proof. vm_compute. discriminate. Qed.

Section Mismatch.

Context {E : Externals}.

Variable p : ccl_parameters.
Variable a : float.

Hypothesis Dv_not_nan : is_nan (virial_overdensity p a) = false.
Hypothesis Hquiet : collaborators_quiet.
Hypothesis Hcodes : mismatch_code_distinct.

Lemma preserves_call (f : ccl_parameters -> outcome) :
  (forall q, quiet (f q)) -> preserves (no_mismatch p) (call f).
Proof.
  intros Hq s (Hp & Hm & Hs). unfold call; cbn [snd].
  specialize (Hq (params (cosmo s))). unfold quiet in Hq.
  destruct (raised _) as [e |].
  - destruct Hq as [Hc Hmsg]. unfold raise_error, no_mismatch; cbn. auto.
  - unfold no_mismatch; auto.
Qed.

Ltac quiet_call := apply preserves_call; intros; apply Hquiet.

Lemma preserves_u_nfw_c (c m k : float) :
  preserves (no_mismatch p) (u_nfw_c c m k a).
Proof.
  unfold u_nfw_c. apply preserves_bind; [quiet_call |]. intros s Hs.
  destruct (k =? 0); [apply preserves_ret |].
  apply preserves_bind; [quiet_call | intros; apply preserves_ret].
Qed.

Lemma preserves_concentration (m : float) :
  preserves (no_mismatch p)
    (ccl_halo_concentration m a (virial_overdensity p a) ccl_duffy2008_virial).
Proof.
  intros s Hs. rewrite duffy_run. cbv zeta.
  rewrite (proj1 Hs), (is_nan_false_eqb _ Dv_not_nan). cbn [snd].
  revert s Hs. quiet_call.
Qed.

Lemma preserves_window_function (m k : float) :
  preserves (no_mismatch p)
    (window_function m k a (virial_overdensity p a) ccl_nfw).
Proof.
  unfold window_function. apply preserves_bind; [quiet_call |]. intros s Hs.
  apply preserves_bind; [apply preserves_concentration |]. intros s1 Hs1.
  apply preserves_bind; [apply preserves_u_nfw_c |]. intros; apply preserves_ret.
Qed.

Lemma preserves_one_halo_integrand (k x : float) :
  preserves (no_mismatch p) (one_halo_integrand {| oh_k := k; oh_a := a |} x).
Proof.
  unfold one_halo_integrand; cbn [oh_k oh_a].
  apply preserves_bind; [quiet_call |]. intros s Hs.
  rewrite call_fst, (proj1 Hs). fold (virial_overdensity p a).
  apply preserves_bind; [apply preserves_window_function |]. intros s1 Hs1.
  apply preserves_bind; [quiet_call | intros; apply preserves_ret].
Qed.

Lemma preserves_two_halo_integrand (k x : float) :
  preserves (no_mismatch p) (two_halo_integrand {| th_k := k; th_a := a |} x).
Proof.
  unfold two_halo_integrand; cbn [th_k th_a].
  apply preserves_bind; [quiet_call |]. intros s Hs.
  rewrite call_fst, (proj1 Hs). fold (virial_overdensity p a).
  apply preserves_bind; [apply preserves_window_function |]. intros s1 Hs1.
  apply preserves_bind; [quiet_call |]. intros s2 Hs2.
  apply preserves_bind; [quiet_call | intros; apply preserves_ret].
Qed.

Lemma preserves_with_local_status {A : Type} (m : M A) :
  preserves (no_mismatch p) m ->
  preserves (no_mismatch p) (with_local_status 0 m).
Proof.
  intros Hm s (Hp & Hmsg & Hst). unfold with_local_status.
  specialize (Hm {| cosmo := cosmo s; status := 0 |}).
  destruct (m _) as [x s']. cbn [snd] in *.
  destruct Hm as (Hp' & Hm' & _).
  - unfold no_mismatch; cbn. repeat split; auto.
    intros H. apply (proj1 Hcodes). symmetry. exact H.
  - unfold no_mismatch; cbn. auto.
Qed.

Lemma preserves_one_halo_integral (k : float) :
  preserves (no_mismatch p) (one_halo_integral k a).
Proof.
  intros s Hs. rewrite one_halo_integral_unfold. cbv zeta.
  destruct (_ =? _)%Z; cbn [snd].
  - revert s Hs. apply preserves_with_local_status, preserves_run_qag.
    intros x. apply preserves_one_halo_integrand.
  - destruct Hs as (Hp & _ & _). unfold no_mismatch, raise_error; cbn.
    repeat split; [exact Hp | apply msg_one_halo_int_neq |].
    intros H. apply (proj1 (proj2 Hcodes)). symmetry. exact H.
Qed.

Lemma preserves_two_halo_integral (k : float) :
  preserves (no_mismatch p) (two_halo_integral k a).
Proof.
  intros s Hs. rewrite two_halo_integral_unfold. cbv zeta.
  destruct (_ =? _)%Z; cbn [snd].
  - revert s Hs. apply preserves_with_local_status, preserves_run_qag.
    intros x. apply preserves_two_halo_integrand.
  - destruct Hs as (Hp & _ & _). unfold no_mismatch, raise_error; cbn.
    repeat split; [exact Hp | apply msg_two_halo_int_neq |].
    intros H. apply (proj2 (proj2 Hcodes)). symmetry. exact H.
Qed.

Lemma preserves_ccl_twohalo_matter_power (k : float) :
  preserves (no_mismatch p) (ccl_twohalo_matter_power k a).
Proof.
  unfold ccl_twohalo_matter_power.
  apply preserves_bind; [apply preserves_two_halo_integral |]. intros s0 Hs0.
  apply preserves_bind; [apply preserves_two_halo_integral |]. intros s1 Hs1.
  apply preserves_bind; [quiet_call |]. intros s Hs.
  rewrite call_fst, (proj1 Hs). fold (virial_overdensity p a).
  apply preserves_bind; [apply preserves_window_function |]. intros s2 Hs2.
  apply preserves_bind; [apply preserves_window_function |]. intros s3 Hs3.
  apply preserves_bind; [quiet_call | intros; apply preserves_ret].
Qed.

Lemma preserves_ccl_onehalo_matter_power (k : float) :
  preserves (no_mismatch p) (ccl_onehalo_matter_power k a).
Proof. apply preserves_one_halo_integral. Qed.

Lemma preserves_ccl_halomodel_matter_power (k : float) :
  preserves (no_mismatch p) (ccl_halomodel_matter_power k a).
Proof.
  unfold ccl_halomodel_matter_power.
  apply preserves_bind; [apply preserves_ccl_twohalo_matter_power |].
  intros s0 Hs0.
  apply preserves_bind; [apply preserves_ccl_onehalo_matter_power |].
  intros; apply preserves_ret.
Qed.

End Mismatch.

Section Guard.

Context {E : Externals}.

(** The guard of the Duffy relation at the virial overdensity itself: it
    takes the error path when that value is NaN; when it is not, the
    concentration is the Duffy one and the entry points keep a memory free
    of ModelMismatch. *)
Lemma duffy_guard_by_overdensity (k a : float) (s : mem) :
  let p := params (cosmo s) in
  let Delta_v := virial_overdensity p a in
  let s1 := snd (call (fun q => Dv_BryanNorman q a) s) in
  (is_nan Delta_v = true ->
     forall m,
       ccl_halo_concentration m a Delta_v ccl_duffy2008_virial s
       = (NAN, raise_error (model_mismatch msg_duffy) s1)) /\
  (is_nan Delta_v = false ->
     (forall m,
        ccl_halo_concentration m a Delta_v ccl_duffy2008_virial s
        = (duffy_concentration p m a, s1)) /\
     (forall m k',
        fst (window_function m k' a Delta_v ccl_nfw s)
        = m * nfw_transform p (duffy_concentration p m a) m k' a
          / value (ccl_rho_x p 1 ccl_species_m_label 1)) /\
     (collaborators_quiet -> mismatch_code_distinct -> no_mismatch p s ->
        no_mismatch p (snd (ccl_onehalo_matter_power k a s)) /\
        no_mismatch p (snd (ccl_twohalo_matter_power k a s)) /\
        no_mismatch p (snd (ccl_halomodel_matter_power k a s)))).
Proof.
  intros p Delta_v s1. split; intros Hnan.
  - intros m. rewrite duffy_run. cbv zeta. fold p Delta_v s1.
    rewrite (is_nan_true_eqb _ Hnan). reflexivity.
  - assert (Hc : forall m,
              ccl_halo_concentration m a Delta_v ccl_duffy2008_virial s
              = (duffy_concentration p m a, s1)).
    { intros m. rewrite duffy_run. cbv zeta. fold p Delta_v s1.
      rewrite (is_nan_false_eqb _ Hnan). reflexivity. }
    split; [exact Hc | split].
    + intros m k'. rewrite window_function_value. fold p.
      rewrite <- (stable_value (ccl_halo_concentration m a Delta_v _) s)
        by auto with stable_db.
      rewrite Hc. reflexivity.
    + intros Hq Hd Hs. split; [| split].
      * apply preserves_ccl_onehalo_matter_power; assumption.
      * apply preserves_ccl_twohalo_matter_power; assumption.
      * apply preserves_ccl_halomodel_matter_power; assumption.
Qed.

End Guard.

Lemma example_ok_quiet : @collaborators_quiet example_ok.
Proof. unfold collaborators_quiet. repeat split. Qed.

Lemma example_ok_codes : @mismatch_code_distinct example_ok.
Proof. unfold mismatch_code_distinct. repeat split; discriminate. Qed.

Lemma example_mem_no_mismatch : @no_mismatch example_ok example_params example_mem.
Proof. unfold no_mismatch. repeat split; discriminate. Qed.

(** C10 as the specification words it fails.  At a NaN scale factor the
    Bryan-Norman overdensity is NaN; no collaborator raises anything, and
    the two-halo and total entry points, started from a clean memory, end
    with the ModelMismatch code and the message of the Duffy guard. *)
Lemma model_mismatch_reached_counterexample :
  is_nan (@virial_overdensity example_ok example_params nan) = true /\
  snd (@ccl_twohalo_matter_power example_ok 0.1 nan example_mem)
  = {| cosmo := {| params := example_params; status_message := msg_duffy |};
       status := @CCL_ERROR_CONC_DV example_ok |} /\
  snd (@ccl_halomodel_matter_power example_ok 0.1 nan example_mem)
  = {| cosmo := {| params := example_params; status_message := msg_duffy |};
       status := @CCL_ERROR_CONC_DV example_ok |}.
Proof. vm_compute. repeat split. Qed.

(** ** What the status cell and the message buffer do not influence *)

Lemma raise_error_params (e : ccl_error) (s s' : mem) :
  params (cosmo s') = params (cosmo s) -> raise_error e s' = raise_error e s.
Proof. intros H. unfold raise_error. rewrite H. reflexivity. Qed.

Lemma raise_error_keeps_params (e : ccl_error) (s : mem) :
  params (cosmo (raise_error e s)) = params (cosmo s).
Proof. reflexivity. Qed.

Lemma call_raised (f : ccl_parameters -> outcome) (e : ccl_error) (s : mem) :
  raised (f (params (cosmo s))) = Some e -> snd (call f s) = raise_error e s.
Proof. intros H. unfold call; cbn [snd]. rewrite H. reflexivity. Qed.

Lemma call_silent (f : ccl_parameters -> outcome) (s : mem) :
  raised (f (params (cosmo s))) = None -> snd (call f s) = s.
Proof. intros H. unfold call; cbn [snd]. rewrite H. reflexivity. Qed.

Section Blindness.

Context {E : Externals}.

(** X1.  No routine reads the status cell or the message buffer: the value
    of the concentration routine and of the three entry points is the same
    from any two memories that hold the same parameters, whatever code or
    text an earlier call has left.  In particular the total computed a
    second time, from the memory the first computation leaves, is the same
    binary64 value, also after a failure. *)
Theorem values_ignore_status_channel (k a : float) (p : ccl_parameters)
    (msg msg' : string) (st st' : Z) :
  let s := {| cosmo := {| params := p; status_message := msg |};
              status := st |} in
  let s' := {| cosmo := {| params := p; status_message := msg' |};
               status := st' |} in
  (forall m odelta label,
     fst (ccl_halo_concentration m a odelta label s)
     = fst (ccl_halo_concentration m a odelta label s')) /\
  fst (ccl_onehalo_matter_power k a s) = fst (ccl_onehalo_matter_power k a s') /\
  fst (ccl_twohalo_matter_power k a s) = fst (ccl_twohalo_matter_power k a s') /\
  fst (ccl_halomodel_matter_power k a s)
    = fst (ccl_halomodel_matter_power k a s') /\
  fst (ccl_halomodel_matter_power k a (snd (ccl_halomodel_matter_power k a s)))
    = fst (ccl_halomodel_matter_power k a s).
Proof.
  intros s s'.
  assert (Hblind : forall (A : Type) (m : M A), stable m -> fst (m s) = fst (m s')).
  { intros A m [_ Hb]. apply Hb. reflexivity. }
  split; [| split; [| split; [| split]]].
  - intros m odelta label. apply Hblind. auto with stable_db.
  - apply Hblind. auto with stable_db.
  - apply Hblind. auto with stable_db.
  - apply Hblind. auto with stable_db.
  - rewrite !(stable_value (ccl_halomodel_matter_power k a))
      by auto with stable_db.
    rewrite stable_params by auto with stable_db. reflexivity.
Qed.

(** X5.  The overdensity handed to the window is compared with the virial
    one and used for nothing else: two overdensities on which the guard of
    the Duffy relation decides alike give the same window value and leave
    the same memory. *)
Theorem window_uses_overdensity_in_guard_only (m k a odelta odelta' : float)
    (s : mem) :
  let Delta_v := virial_overdensity (params (cosmo s)) a in
  (odelta =? Delta_v) = (odelta' =? Delta_v) ->
  window_function m k a odelta ccl_nfw s
  = window_function m k a odelta' ccl_nfw s.
Proof.
  intros Delta_v H. unfold window_function. rewrite !bind_run.
  rewrite !duffy_run. cbv zeta. rewrite call_params. fold Delta_v.
  rewrite H. reflexivity.
Qed.

(** X6.  Whenever the wavenumber compares equal to zero the window value is
    m * 1 / rho_m, for every scale factor and every overdensity.  This
    includes an overdensity the Duffy guard rejects: the routine then leaves
    the ModelMismatch code and message (here for a virial-overdensity
    collaborator that raises nothing) and still returns that number, not
    NaN. *)
Theorem window_at_zero_wavenumber (m k a odelta : float) (s : mem) :
  let p := params (cosmo s) in
  (k =? 0) = true ->
  fst (window_function m k a odelta ccl_nfw s)
    = m * 1 / value (ccl_rho_x p 1 ccl_species_m_label 1) /\
  ((odelta =? virial_overdensity p a) = false ->
   raised (Dv_BryanNorman p a) = None ->
   snd (window_function m k a odelta ccl_nfw s)
   = raise_error (model_mismatch msg_duffy) s).
Proof.
  intros p Hk. split.
  - unfold window_function. rewrite !bind_run.
    rewrite u_nfw_c_special_case by exact Hk. reflexivity.
  - intros Hg Hq. unfold window_function. rewrite !bind_run.
    rewrite u_nfw_c_special_case by exact Hk. cbn [snd ret].
    rewrite duffy_run. cbv zeta. rewrite call_params. fold p.
    rewrite Hg. cbn [snd].
    rewrite call_silent
      by (cbv beta; rewrite raise_error_keeps_params, !call_params; exact Hq).
    apply raise_error_params. rewrite !call_params. reflexivity.
Qed.

(** X7.  The linear power spectrum is the last call of the two-halo term,
    and nothing looks at the status before it: when it raises an error the
    two-halo term ends with that code and message, whatever the quadratures
    and the window stored before, an IntegrationFailure included. *)
Theorem linear_power_error_is_reported (k a : float) (s : mem) (e : ccl_error) :
  raised (ccl_linear_matter_power (params (cosmo s)) k a) = Some e ->
  snd (ccl_twohalo_matter_power k a s) = raise_error e s.
Proof.
  intros H. unfold ccl_twohalo_matter_power. rewrite !bind_run.
  cbn [snd ret].
  match goal with
  | |- snd (call ?f ?s') = _ =>
      assert (Hp : params (cosmo s') = params (cosmo s))
        by (repeat first [ rewrite call_params
                         | rewrite stable_params by auto with stable_db ];
            reflexivity);
      rewrite (call_raised f e s') by (rewrite Hp; exact H);
      apply raise_error_params; exact Hp
  end.
Qed.

(** X8.  When the virial overdensity is NaN the window at zero wavenumber,
    evaluated last before the linear power, takes the ModelMismatch path:
    if the virial-overdensity and linear-power collaborators raise nothing,
    the two-halo term ends with the ModelMismatch code and the message of
    the Duffy guard, whatever the quadratures stored before. *)
Theorem nan_overdensity_is_reported_as_mismatch (k a : float) (s : mem) :
  let p := params (cosmo s) in
  is_nan (virial_overdensity p a) = true ->
  raised (Dv_BryanNorman p a) = None ->
  raised (ccl_linear_matter_power p k a) = None ->
  snd (ccl_twohalo_matter_power k a s)
  = raise_error (model_mismatch msg_duffy) s.
Proof.
  intros p Hnan HDv Hlp. unfold ccl_twohalo_matter_power. rewrite !bind_run.
  cbn [snd ret].
  set (s2 := snd (two_halo_integral 0 a (snd (two_halo_integral k a s)))).
  assert (Hp2 : params (cosmo s2) = p).
  { unfold s2. rewrite !stable_params by auto with stable_db. reflexivity. }
  rewrite call_fst, Hp2. fold (virial_overdensity p a).
  rewrite (call_silent _ s2) by (rewrite Hp2; exact HDv).
  set (s4 := snd (window_function HM_MMIN k a (virial_overdensity p a) ccl_nfw s2)).
  assert (Hp4 : params (cosmo s4) = p).
  { unfold s4. rewrite stable_params by auto with stable_db. exact Hp2. }
  assert (H5 : snd (window_function HM_MMIN 0 a (virial_overdensity p a) ccl_nfw s4)
               = raise_error (model_mismatch msg_duffy) s).
  { unfold window_function. rewrite !bind_run.
    rewrite u_nfw_c_special_case by reflexivity. cbn [snd ret].
    rewrite duffy_run. cbv zeta. rewrite call_params, Hp4.
    rewrite (is_nan_true_eqb _ Hnan). cbn [snd].
    rewrite call_silent
      by (cbv beta; rewrite raise_error_keeps_params, !call_params, Hp4;
          exact HDv).
    apply raise_error_params. rewrite !call_params. rewrite Hp4. reflexivity. }
  rewrite H5.
  rewrite call_silent
    by (cbv beta; rewrite raise_error_keeps_params; exact Hlp).
  reflexivity.
Qed.

End Blindness.

(** X5 at two overdensities, 200 and 500, that the guard both rejects. *)
Lemma window_uses_overdensity_in_guard_only_witness :
  @window_function example_ok 1e12 0.1 1 200 ccl_nfw example_mem
  = @window_function example_ok 1e12 0.1 1 500 ccl_nfw example_mem.
Proof.
  apply (@window_uses_overdensity_in_guard_only example_ok
           1e12 0.1 1 200 500 example_mem).
  vm_compute. reflexivity.
Defined.

(** X6 at the negative zero and an overdensity of 200, which is not the
    virial one. *)
Lemma window_at_zero_wavenumber_witness :
  fst (@window_function example_ok 1e12 (-0) 1 200 ccl_nfw example_mem)
    = 1e12 * 1 / value (@ccl_rho_x example_ok example_params 1
                          ccl_species_m_label 1) /\
  snd (@window_function example_ok 1e12 (-0) 1 200 ccl_nfw example_mem)
    = raise_error (@model_mismatch example_ok msg_duffy) example_mem.
Proof.
  pose proof (@window_at_zero_wavenumber example_ok 1e12 (-0) 1 200 example_mem)
    as H.
  cbv zeta in H. destruct H as [Hv Hs]; [vm_compute; reflexivity |].
  split; [exact Hv | apply Hs; vm_compute; reflexivity].
Defined.

(** X7 with every quadrature failing: the caller sees the error of the
    linear power, not the IntegrationFailure. *)
Lemma linear_power_error_is_reported_witness :
  snd (@ccl_twohalo_matter_power example_power_error 0.1 1 example_mem)
  = raise_error power_failure example_mem.
Proof.
  apply (@linear_power_error_is_reported example_power_error 0.1 1 example_mem).
  reflexivity.
Defined.

(** X8 at a NaN scale factor with every quadrature failing. *)
Lemma nan_overdensity_is_reported_as_mismatch_witness :
  snd (@ccl_twohalo_matter_power example_maxiter 0.1 nan example_mem)
  = raise_error (@model_mismatch example_maxiter msg_duffy) example_mem.
Proof.
  apply (@nan_overdensity_is_reported_as_mismatch example_maxiter 0.1 nan
           example_mem); vm_compute; reflexivity.
Defined.

(** ** The memory the routines leave *)

Lemma unchanged_ret {A : Type} (p : ccl_parameters) (x : A) :
  unchanged p (ret x).
Proof. intros s _. reflexivity. Qed.

Lemma unchanged_bind {A B : Type} (p : ccl_parameters) (m : M A)
    (f : A -> M B) :
  unchanged p m ->
  (forall s, params (cosmo s) = p -> unchanged p (f (fst (m s)))) ->
  unchanged p (bind m f).
Proof.
  intros Hm Hf s Hs. rewrite bind_run, (Hm s Hs). apply (Hf s Hs s Hs).
Qed.

Lemma unchanged_run_qag (p : ccl_parameters) (t : qag_run)
    (F : float -> M float) :
  (forall x, unchanged p (F x)) -> unchanged p (run_qag t F).
Proof.
  intros HF. induction t as [q r e | x next IH]; simpl.
  - apply unchanged_ret.
  - apply unchanged_bind; [apply HF | intros s _; apply IH].
Qed.

Lemma unchanged_with_local_status {A : Type} (p : ccl_parameters) (m : M A) :
  unchanged p m -> unchanged p (with_local_status 0 m).
Proof.
  intros Hm s Hs. unfold with_local_status.
  specialize (Hm {| cosmo := cosmo s; status := 0 |} Hs).
  destruct (m _) as [x s']. cbn [snd] in *. subst s'.
  destruct s; reflexivity.
Qed.

Section Silent.

Context {E : Externals}.

Variable p : ccl_parameters.
Variable a : float.

Hypothesis Hsilent : for_all_outcomes silent.
Hypothesis Dv_not_nan : is_nan (virial_overdensity p a) = false.

Lemma unchanged_call (f : ccl_parameters -> outcome) :
  (forall q, silent (f q)) -> unchanged p (call f).
Proof. intros Hq s _. apply call_silent. apply Hq. Qed.

Ltac silent_call := apply unchanged_call; intros; apply Hsilent.

Lemma unchanged_u_nfw_c (c m k : float) : unchanged p (u_nfw_c c m k a).
Proof.
  unfold u_nfw_c. apply unchanged_bind; [silent_call |]. intros s Hs.
  destruct (k =? 0); [apply unchanged_ret |].
  apply unchanged_bind; [silent_call | intros; apply unchanged_ret].
Qed.

Lemma unchanged_concentration (m : float) :
  unchanged p
    (ccl_halo_concentration m a (virial_overdensity p a) ccl_duffy2008_virial).
Proof.
  intros s Hs. rewrite duffy_run. cbv zeta.
  rewrite Hs, (is_nan_false_eqb _ Dv_not_nan). cbn [snd].
  revert s Hs. silent_call.
Qed.

Lemma unchanged_window_function (m k : float) :
  unchanged p (window_function m k a (virial_overdensity p a) ccl_nfw).
Proof.
  unfold window_function. apply unchanged_bind; [silent_call |]. intros s Hs.
  apply unchanged_bind; [apply unchanged_concentration |]. intros s1 Hs1.
  apply unchanged_bind; [apply unchanged_u_nfw_c |]. intros; apply unchanged_ret.
Qed.

Lemma unchanged_one_halo_integrand (k x : float) :
  unchanged p (one_halo_integrand {| oh_k := k; oh_a := a |} x).
Proof.
  unfold one_halo_integrand; cbn [oh_k oh_a].
  apply unchanged_bind; [silent_call |]. intros s Hs.
  rewrite call_fst, Hs. fold (virial_overdensity p a).
  apply unchanged_bind; [apply unchanged_window_function |]. intros s1 Hs1.
  apply unchanged_bind; [silent_call | intros; apply unchanged_ret].
Qed.

Lemma unchanged_two_halo_integrand (k x : float) :
  unchanged p (two_halo_integrand {| th_k := k; th_a := a |} x).
Proof.
  unfold two_halo_integrand; cbn [th_k th_a].
  apply unchanged_bind; [silent_call |]. intros s Hs.
  rewrite call_fst, Hs. fold (virial_overdensity p a).
  apply unchanged_bind; [apply unchanged_window_function |]. intros s1 Hs1.
  apply unchanged_bind; [silent_call |]. intros s2 Hs2.
  apply unchanged_bind; [silent_call | intros; apply unchanged_ret].
Qed.

Lemma one_halo_integral_leaves (k : float) (s : mem) :
  params (cosmo s) = p ->
  snd (one_halo_integral k a s)
  = if one_halo_converges p k a then s else raise_error one_halo_failure s.
Proof.
  intros Hs. rewrite one_halo_integral_unfold. cbv zeta. rewrite Hs.
  fold (one_halo_converges p k a).
  destruct (one_halo_converges p k a); cbn [snd]; [| reflexivity].
  revert s Hs. apply unchanged_with_local_status, unchanged_run_qag.
  intros x. apply unchanged_one_halo_integrand.
Qed.

Lemma two_halo_integral_leaves (k : float) (s : mem) :
  params (cosmo s) = p ->
  snd (two_halo_integral k a s)
  = if two_halo_converges p k a then s else raise_error two_halo_failure s.
Proof.
  intros Hs. rewrite two_halo_integral_unfold. cbv zeta. rewrite Hs.
  fold (two_halo_converges p k a).
  destruct (two_halo_converges p k a); cbn [snd]; [| reflexivity].
  revert s Hs. apply unchanged_with_local_status, unchanged_run_qag.
  intros x. apply unchanged_two_halo_integrand.
Qed.

Lemma twohalo_leaves (k : float) (s : mem) :
  params (cosmo s) = p ->
  snd (ccl_twohalo_matter_power k a s)
  = if two_halo_converges p k a && two_halo_converges p 0 a then s
    else raise_error two_halo_failure s.
Proof.
  intros Hs. unfold ccl_twohalo_matter_power. rewrite !bind_run.
  cbn [snd ret].
  rewrite (two_halo_integral_leaves k s Hs).
  set (s1 := if two_halo_converges p k a then s
             else raise_error two_halo_failure s).
  assert (Hs1 : params (cosmo s1) = p).
  { unfold s1. destruct (two_halo_converges p k a); exact Hs. }
  rewrite (two_halo_integral_leaves 0 s1 Hs1).
  set (s2 := if two_halo_converges p 0 a then s1
             else raise_error two_halo_failure s1).
  assert (Hs2 : params (cosmo s2) = p).
  { unfold s2. destruct (two_halo_converges p 0 a); exact Hs1. }
  assert (Hcall : forall f, (forall q, silent (f q)) ->
            forall s', params (cosmo s') = p -> snd (call f s') = s').
  { intros f Hf s' Hs'. apply (unchanged_call f Hf s' Hs'). }
  rewrite call_fst, Hs2. fold (virial_overdensity p a).
  rewrite (Hcall _ (fun q => proj1 Hsilent q a) s2 Hs2).
  rewrite (unchanged_window_function HM_MMIN k s2 Hs2).
  rewrite (unchanged_window_function HM_MMIN 0 s2 Hs2).
  rewrite Hcall; [| intros; apply Hsilent | exact Hs2].
  unfold s2, s1.
  destruct (two_halo_converges p k a), (two_halo_converges p 0 a);
    cbn [andb]; reflexivity.
Qed.

End Silent.

Section Outcomes.

Context {E : Externals}.

(** X2.  With collaborators that raise nothing and a virial overdensity
    that is not NaN, the memory an entry point leaves is decided by the
    quadratures alone.  When they converge it is the memory the call
    started from: status and message are not reset, so a code left by an
    earlier call is still there.  When one fails it holds the
    IntegrationFailure code and message of the integral that failed last
    (the total with the two-halo term called first). *)
Theorem memory_left_by_entry_points (k a : float) (s : mem) :
  let p := params (cosmo s) in
  for_all_outcomes silent ->
  is_nan (virial_overdensity p a) = false ->
  snd (ccl_onehalo_matter_power k a s)
    = (if one_halo_converges p k a then s
       else raise_error one_halo_failure s) /\
  snd (ccl_twohalo_matter_power k a s)
    = (if two_halo_converges p k a && two_halo_converges p 0 a then s
       else raise_error two_halo_failure s) /\
  snd (ccl_halomodel_matter_power k a s)
    = (if one_halo_converges p k a
       then if two_halo_converges p k a && two_halo_converges p 0 a then s
            else raise_error two_halo_failure s
       else raise_error one_halo_failure s).
Proof.
  intros p Hsilent Hnan.
  pose proof (twohalo_leaves p a Hsilent Hnan k s eq_refl) as H2.
  split; [| split].
  - apply (one_halo_integral_leaves p a Hsilent Hnan k s eq_refl).
  - exact H2.
  - unfold ccl_halomodel_matter_power. rewrite !bind_run. cbn [snd ret].
    rewrite H2. fold p.
    set (s2 := if two_halo_converges p k a && two_halo_converges p 0 a
               then s else raise_error two_halo_failure s).
    assert (Hs2 : params (cosmo s2) = p).
    { unfold s2. destruct (_ && _); reflexivity. }
    unfold ccl_onehalo_matter_power.
    rewrite (one_halo_integral_leaves p a Hsilent Hnan k s2 Hs2).
    destruct (one_halo_converges p k a); [reflexivity |].
    apply raise_error_params. exact Hs2.
Qed.

(** X9.  C does not fix which of the two terms of the total is computed
    first, and the code reported depends on it.  With silent collaborators
    and an overdensity that is not NaN, when the one-halo quadrature and the
    two-halo quadrature at k both fail, the total ends with the one-halo
    IntegrationFailure if the two-halo term is called first and with the
    two-halo IntegrationFailure if the one-halo term is called first. *)
Theorem reported_failure_depends_on_order (k a : float) (s : mem) :
  let p := params (cosmo s) in
  for_all_outcomes silent ->
  is_nan (virial_overdensity p a) = false ->
  one_halo_converges p k a = false ->
  two_halo_converges p k a = false ->
  snd (ccl_halomodel_matter_power k a s) = raise_error one_halo_failure s /\
  snd (ccl_halomodel_matter_power_rl k a s) = raise_error two_halo_failure s.
Proof.
  intros p Hsilent Hnan H1 H2. split.
  - unfold ccl_halomodel_matter_power. rewrite !bind_run. cbn [snd ret].
    unfold ccl_onehalo_matter_power.
    rewrite (one_halo_integral_leaves p a Hsilent Hnan k)
      by (apply stable_params; auto with stable_db).
    rewrite H1. apply raise_error_params.
    apply stable_params; auto with stable_db.
  - unfold ccl_halomodel_matter_power_rl. rewrite !bind_run. cbn [snd ret].
    rewrite (twohalo_leaves p a Hsilent Hnan k)
      by (apply stable_params; auto with stable_db).
    rewrite H2. cbn [andb]. apply raise_error_params.
    apply stable_params; auto with stable_db.
Qed.

End Outcomes.

Lemma example_ok_silent : @for_all_outcomes example_ok silent.
Proof. unfold for_all_outcomes, silent. repeat split. Qed.

Lemma example_maxiter_silent : @for_all_outcomes example_maxiter silent.
Proof. unfold for_all_outcomes, silent. repeat split. Qed.

(** X2 from a memory that holds an earlier error: the converging
    quadratures leave it as it is, the failing ones replace it. *)
Lemma memory_left_by_entry_points_witness :
  (snd (@ccl_onehalo_matter_power example_ok 0.1 1 example_latched_mem)
     = example_latched_mem /\
   snd (@ccl_twohalo_matter_power example_ok 0.1 1 example_latched_mem)
     = example_latched_mem /\
   snd (@ccl_halomodel_matter_power example_ok 0.1 1 example_latched_mem)
     = example_latched_mem) /\
  (snd (@ccl_onehalo_matter_power example_maxiter 0.1 1 example_latched_mem)
     = raise_error (@one_halo_failure example_maxiter) example_latched_mem /\
   snd (@ccl_twohalo_matter_power example_maxiter 0.1 1 example_latched_mem)
     = raise_error (@two_halo_failure example_maxiter) example_latched_mem /\
   snd (@ccl_halomodel_matter_power example_maxiter 0.1 1 example_latched_mem)
     = raise_error (@one_halo_failure example_maxiter) example_latched_mem).
Proof.
  split.
  - apply (@memory_left_by_entry_points example_ok 0.1 1 example_latched_mem).
    + exact example_ok_silent.
    + vm_compute. reflexivity.
  - apply (@memory_left_by_entry_points example_maxiter 0.1 1
             example_latched_mem).
    + exact example_maxiter_silent.
    + vm_compute. reflexivity.
Defined.

(** X9 with every quadrature failing. *)
Lemma reported_failure_depends_on_order_witness :
  snd (@ccl_halomodel_matter_power example_maxiter 0.1 1 example_mem)
    = raise_error (@one_halo_failure example_maxiter) example_mem /\
  snd (@ccl_halomodel_matter_power_rl example_maxiter 0.1 1 example_mem)
    = raise_error (@two_halo_failure example_maxiter) example_mem.
Proof.
  apply (@reported_failure_depends_on_order example_maxiter 0.1 1 example_mem).
  - exact example_maxiter_silent.
  - vm_compute. reflexivity.
  - vm_compute. reflexivity.
  - vm_compute. reflexivity.
Defined.

(** ** A latched error is never cleared *)

Lemma preserves_if {A : Type} (P : mem -> Prop) (b : bool) (m1 m2 : M A) :
  preserves P m1 -> preserves P m2 -> preserves P (if b then m1 else m2).
Proof. destruct b; auto. Qed.

Lemma latched_strcpy_status_message (msg : string) :
  preserves latched (strcpy_status_message msg).
Proof. intros s Hs. exact Hs. Qed.

Lemma latched_set_status (c : Z) :
  c <> 0%Z -> preserves latched (set_status c).
Proof. intros Hc s _. exact Hc. Qed.

Lemma latched_call (f : ccl_parameters -> outcome) :
  (forall q, raises_nonzero (f q)) -> preserves latched (call f).
Proof.
  intros Hq s Hs. unfold call; cbn [snd].
  destruct (raised (f (params (cosmo s)))) as [e |] eqn:He.
  - unfold latched, raise_error; cbn. apply (Hq _ e He).
  - exact Hs.
Qed.

Section Latched.

Context {E : Externals}.

Hypothesis Hcodes : codes_nonzero.
Hypothesis Hraise : for_all_outcomes raises_nonzero.

Ltac latched_step :=
  first [ apply preserves_ret
        | apply latched_strcpy_status_message
        | apply latched_set_status; apply Hcodes
        | apply latched_call; intros; apply Hraise
        | apply preserves_if
        | apply preserves_bind; [| intros ? ?] ].

Lemma latched_ccl_halo_concentration (m a odelta : float)
    (label : ccl_conc_label) :
  preserves latched (ccl_halo_concentration m a odelta label).
Proof.
  destruct label; unfold ccl_halo_concentration, ccl_raise_exception, params_h;
    repeat latched_step.
  intros s' Hs'. exact Hs'.
Qed.

Lemma latched_u_nfw_c (c m k a : float) :
  preserves latched (u_nfw_c c m k a).
Proof. unfold u_nfw_c. repeat latched_step. Qed.

Lemma latched_window_function (m k a odelta : float) (label : ccl_win_label) :
  preserves latched (window_function m k a odelta label).
Proof.
  destruct label; unfold window_function, ccl_raise_exception.
  - apply preserves_bind; [latched_step | intros ? ?].
    apply preserves_bind; [apply latched_ccl_halo_concentration | intros ? ?].
    apply preserves_bind; [apply latched_u_nfw_c | intros ? ?].
    apply preserves_ret.
  - repeat latched_step.
Qed.

Lemma latched_one_halo_integral (k a : float) :
  preserves latched (one_halo_integral k a).
Proof.
  intros s Hs. rewrite one_halo_integral_unfold. cbv zeta.
  destruct (_ =? _)%Z; cbn [snd].
  - unfold latched, one_halo_qag. rewrite with_local_status_status. exact Hs.
  - apply Hcodes.
Qed.

Lemma latched_two_halo_integral (k a : float) :
  preserves latched (two_halo_integral k a).
Proof.
  intros s Hs. rewrite two_halo_integral_unfold. cbv zeta.
  destruct (_ =? _)%Z; cbn [snd].
  - unfold latched, two_halo_qag. rewrite with_local_status_status. exact Hs.
  - apply Hcodes.
Qed.

Lemma latched_ccl_twohalo_matter_power (k a : float) :
  preserves latched (ccl_twohalo_matter_power k a).
Proof.
  unfold ccl_twohalo_matter_power.
  apply preserves_bind; [apply latched_two_halo_integral | intros ? ?].
  apply preserves_bind; [apply latched_two_halo_integral | intros ? ?].
  apply preserves_bind; [latched_step | intros ? ?].
  apply preserves_bind; [apply latched_window_function | intros ? ?].
  apply preserves_bind; [apply latched_window_function | intros ? ?].
  apply preserves_bind; [latched_step | intros ? ?].
  apply preserves_ret.
Qed.

Lemma latched_ccl_halomodel_matter_power (k a : float) :
  preserves latched (ccl_halomodel_matter_power k a).
Proof.
  unfold ccl_halomodel_matter_power, ccl_onehalo_matter_power.
  apply preserves_bind; [apply latched_ccl_twohalo_matter_power | intros ? ?].
  apply preserves_bind; [apply latched_one_halo_integral | intros ? ?].
  apply preserves_ret.
Qed.

End Latched.

Section Sticky.

Context {E : Externals}.

(** X3.  The routines overwrite the status but never clear it.  If the five
    error codes of the file are not 0 and no collaborator raises the code 0,
    a status that is not 0 on entry is not 0 on return, for the
    concentration routine with any label and for the three entry points,
    whether they succeed or fail. *)
Theorem latched_status_is_never_cleared (k a : float) (s : mem) :
  codes_nonzero ->
  for_all_outcomes raises_nonzero ->
  latched s ->
  (forall m odelta label,
     latched (snd (ccl_halo_concentration m a odelta label s))) /\
  latched (snd (ccl_onehalo_matter_power k a s)) /\
  latched (snd (ccl_twohalo_matter_power k a s)) /\
  latched (snd (ccl_halomodel_matter_power k a s)).
Proof.
  intros Hc Hr Hs. split; [| split; [| split]].
  - intros m odelta label.
    apply latched_ccl_halo_concentration; assumption.
  - apply latched_one_halo_integral; assumption.
  - apply latched_ccl_twohalo_matter_power; assumption.
  - apply latched_ccl_halomodel_matter_power; assumption.
Qed.

End Sticky.

Lemma example_mf_error_codes : @codes_nonzero example_mf_error.
Proof. unfold codes_nonzero. repeat split; discriminate. Qed.

Lemma example_mf_error_raises_nonzero :
  @for_all_outcomes example_mf_error raises_nonzero.
Proof.
  unfold for_all_outcomes, raises_nonzero.
  repeat split; intros; try discriminate.
  match goal with H : raised _ = Some _ |- _ => injection H as <- end.
  discriminate.
Qed.

(** X3 from a memory with status 1028, with a mass function that raises
    code 1034 inside the integrands. *)
Lemma latched_status_is_never_cleared_witness :
  latched (snd (@ccl_halo_concentration example_mf_error 1e12 1 200
                  ccl_bhattacharya2011 example_latched_mem)) /\
  latched (snd (@ccl_onehalo_matter_power example_mf_error 0.1 1
                  example_latched_mem)) /\
  latched (snd (@ccl_twohalo_matter_power example_mf_error 0.1 1
                  example_latched_mem)) /\
  latched (snd (@ccl_halomodel_matter_power example_mf_error 0.1 1
                  example_latched_mem)).
Proof.
  destruct (@latched_status_is_never_cleared example_mf_error 0.1 1
              example_latched_mem) as (H1 & H2 & H3 & H4).
  - exact example_mf_error_codes.
  - exact example_mf_error_raises_nonzero.
  - unfold latched. vm_compute. discriminate.
  - split; [apply H1 | split; [exact H2 | split; [exact H3 | exact H4]]].
Defined.

(** ** Errors raised inside an integrand *)

Lemma with_local_status_snd {A : Type} (init : Z) (m : M A) (s : mem) :
  snd (with_local_status init m s)
  = {| cosmo := cosmo (snd (m {| cosmo := cosmo s; status := init |}));
       status := status s |}.
Proof. unfold with_local_status. destruct (m _); reflexivity. Qed.

Lemma run_qag_last_error (e : ccl_error) (F : float -> M float) (t : qag_run) :
  (forall x s, snd (F x s) = raise_error e s) ->
  forall s, evaluates t = true -> snd (run_qag t F s) = raise_error e s.
Proof.
  intros HF. induction t as [q r err | x next IH]; intros s Ht.
  - discriminate.
  - simpl. rewrite bind_run, HF.
    destruct (next (fst (F x s))) as [q r err | x' next'] eqn:Hn.
    + reflexivity.
    + specialize (IH (fst (F x s)) (raise_error e s)). rewrite Hn in IH.
      rewrite IH by reflexivity. reflexivity.
Qed.

Section IntegrandErrors.

Context {E : Externals}.

(** X4.  The mass function is the last call of the one-halo integrand and
    writes through the integrand's own status pointer.  If it raises an
    error at every mass, the quadrature evaluates the integrand at least
    once and converges, then the one-halo term returns with the caller's
    status exactly as it was, while the message buffer holds the text of
    that error: the code of an error raised inside the integrand does not
    reach the caller. *)
Theorem integrand_error_reaches_message_only (k a : float) (s : mem)
    (e : ccl_error) :
  let p := params (cosmo s) in
  (forall q m d, raised (ccl_massfunc q m a d) = Some e) ->
  evaluates mass_quadrature = true ->
  one_halo_converges p k a = true ->
  snd (ccl_onehalo_matter_power k a s)
  = {| cosmo := {| params := p; status_message := message e |};
       status := status s |}.
Proof.
  intros p Hmf Hev Hconv.
  unfold ccl_onehalo_matter_power. rewrite one_halo_integral_unfold. cbv zeta.
  fold p. fold (one_halo_converges p k a). rewrite Hconv. cbn [snd].
  unfold one_halo_qag. rewrite with_local_status_snd.
  rewrite (run_qag_last_error e).
  - reflexivity.
  - intros x s'. unfold one_halo_integrand; cbn [oh_k oh_a].
    rewrite !bind_run. cbn [snd ret].
    rewrite (call_raised _ e) by apply Hmf.
    apply raise_error_params.
    rewrite stable_params by auto with stable_db. apply call_params.
  - exact Hev.
Qed.

End IntegrandErrors.

(** X4 in the example whose mass function raises code 1034. *)
Lemma integrand_error_reaches_message_only_witness :
  snd (@ccl_onehalo_matter_power example_mf_error 0.1 1 example_mem)
  = {| cosmo := {| params := example_params;
                   status_message := "ccl_massfunc(): failure" |};
       status := 0 |}.
Proof.
  apply (@integrand_error_reaches_message_only example_mf_error 0.1 1
           example_mem {| code := 1034; message := "ccl_massfunc(): failure" |}).
  - intros q m d. reflexivity.
  - vm_compute. reflexivity.
  - vm_compute. reflexivity.
Defined.

(** ** A wavenumber that compares equal to zero *)

Lemma run_qag_ext (t : qag_run) (F G : float -> M float) :
  (forall x s, F x s = G x s) -> forall s, run_qag t F s = run_qag t G s.
Proof.
  intros H. induction t as [q r e | x next IH]; intros s; simpl.
  - reflexivity.
  - rewrite !bind_run, H. apply IH.
Qed.

Section ZeroWavenumber.

Context {E : Externals}.

Lemma window_function_zero_like (m k a odelta : float) (s : mem) :
  (k =? 0) = true ->
  window_function m k a odelta ccl_nfw s
  = window_function m 0 a odelta ccl_nfw s.
Proof.
  intros Hk. unfold window_function. rewrite !bind_run.
  rewrite !(u_nfw_c_special_case _ m k a _ Hk).
  rewrite !(u_nfw_c_special_case _ m 0 a _ eq_refl). reflexivity.
Qed.

(** X10.  The wavenumber enters this file only through the test [k == 0.]
    and the general branch of the profile, so a wavenumber that compares
    equal to zero, of either sign, gives exactly the window, the mass
    integrals and the one-halo term of k = 0: same value, same memory. *)
Theorem zero_of_either_sign (k a : float) (s : mem) :
  (k =? 0) = true ->
  (forall m odelta,
     window_function m k a odelta ccl_nfw s
     = window_function m 0 a odelta ccl_nfw s) /\
  two_halo_integral k a s = two_halo_integral 0 a s /\
  ccl_onehalo_matter_power k a s = ccl_onehalo_matter_power 0 a s.
Proof.
  intros Hk. split; [| split].
  - intros m odelta. apply window_function_zero_like. exact Hk.
  - unfold two_halo_integral. cbv zeta. unfold bind, with_local_status.
    rewrite (run_qag_ext _ (two_halo_integrand {| th_k := k; th_a := a |})
               (two_halo_integrand {| th_k := 0; th_a := a |})).
    + reflexivity.
    + intros x s'. unfold two_halo_integrand; cbn [th_k th_a].
      rewrite !bind_run.
      rewrite !(window_function_zero_like _ k a _ _ Hk). reflexivity.
  - unfold ccl_onehalo_matter_power, one_halo_integral. cbv zeta.
    unfold bind, with_local_status.
    rewrite (run_qag_ext _ (one_halo_integrand {| oh_k := k; oh_a := a |})
               (one_halo_integrand {| oh_k := 0; oh_a := a |})).
    + reflexivity.
    + intros x s'. unfold one_halo_integrand; cbn [oh_k oh_a].
      rewrite !bind_run.
      rewrite !(window_function_zero_like _ k a _ _ Hk). reflexivity.
Qed.

End ZeroWavenumber.

(** X10 at the negative zero. *)
Lemma zero_of_either_sign_witness :
  @window_function example_ok 1e12 (-0) 1 200 ccl_nfw example_mem
    = @window_function example_ok 1e12 0 1 200 ccl_nfw example_mem /\
  @two_halo_integral example_ok (-0) 1 example_mem
    = @two_halo_integral example_ok 0 1 example_mem /\
  @ccl_onehalo_matter_power example_ok (-0) 1 example_mem
    = @ccl_onehalo_matter_power example_ok 0 1 example_mem.
Proof.
  destruct (@zero_of_either_sign example_ok (-0) 1 example_mem)
    as (H1 & H2 & H3).
  - reflexivity.
  - split; [apply H1 | split; [exact H2 | exact H3]].
Defined.

(** ** Failures of the quadrature at the entry points *)

Section FailurePropagation.

Context {E : Externals}.

Lemma one_halo_integral_fails (k a : float) (s : mem) :
  one_halo_converges (params (cosmo s)) k a = false ->
  one_halo_integral k a s = (NAN, raise_error one_halo_failure s).
Proof.
  intros H. rewrite one_halo_integral_unfold. cbv zeta.
  unfold one_halo_converges in H. rewrite H. reflexivity.
Qed.

Lemma two_halo_integral_fails (k a : float) (s : mem) :
  two_halo_converges (params (cosmo s)) k a = false ->
  two_halo_integral k a s = (NAN, raise_error two_halo_failure s).
Proof.
  intros H. rewrite two_halo_integral_unfold. cbv zeta.
  unfold two_halo_converges in H. rewrite H. reflexivity.
Qed.

(** C2, as the code has it.
    (1) A mass integral whose quadrature fails, one-halo or two-halo,
    replaces the status by its IntegrationFailure code and the message by
    its own text, and returns NaN; the one-halo entry point is that
    integral.
    (2) The two-halo and total entry points return NaN, by the arithmetic,
    whenever one of their quadratures failed.
    (3) No entry point tests the status or stops early: the two-halo term
    always runs both quadratures and then the virial-overdensity call, the
    two windows and the linear power, each from the memory the previous one
    leaves; the total, in either order of evaluation, runs its second term
    from the memory of the first.
    (4) Hence a later write replaces the first failure: with the one-halo
    term called last, its quadrature failure replaces whatever the two-halo
    term stored; and when no collaborator raises an error and the virial
    overdensity is not NaN, an entry point with a failed quadrature ends
    with the code and message of the integral that failed last.
    (5) The parameters are never written. *)
Theorem quadrature_failure_spec (k a : float) (s : mem) :
  let p := params (cosmo s) in
  let Delta_v := virial_overdensity p a in
  let after_quadratures :=
    snd (two_halo_integral 0 a (snd (two_halo_integral k a s))) in
  let rest : M float :=
    (Dv <- call (fun q => Dv_BryanNorman q a) ;;
     W1 <- window_function HM_MMIN k a Dv ccl_nfw ;;
     W2 <- window_function HM_MMIN 0 a Dv ccl_nfw ;;
     call (fun q => ccl_linear_matter_power q k a)) in
  let two_ok := two_halo_converges p k a && two_halo_converges p 0 a in
  (* 1 *)
  ccl_onehalo_matter_power k a s = one_halo_integral k a s /\
  (one_halo_converges p k a = false ->
     one_halo_integral k a s = (NAN, raise_error one_halo_failure s) /\
     ccl_onehalo_matter_power k a s = (NAN, raise_error one_halo_failure s)) /\
  (forall k', two_halo_converges p k' a = false ->
     two_halo_integral k' a s = (NAN, raise_error two_halo_failure s)) /\
  (* 2 *)
  (two_ok = false -> fst (ccl_twohalo_matter_power k a s) = NAN) /\
  (one_halo_converges p k a = false \/ two_ok = false ->
     fst (ccl_halomodel_matter_power k a s) = NAN /\
     fst (ccl_halomodel_matter_power_rl k a s) = NAN) /\
  (* 3 *)
  snd (ccl_twohalo_matter_power k a s) = snd (rest after_quadratures) /\
  snd (ccl_halomodel_matter_power k a s)
    = snd (ccl_onehalo_matter_power k a (snd (ccl_twohalo_matter_power k a s))) /\
  snd (ccl_halomodel_matter_power_rl k a s)
    = snd (ccl_twohalo_matter_power k a (snd (ccl_onehalo_matter_power k a s))) /\
  (* 4 *)
  (one_halo_converges p k a = false ->
     snd (ccl_halomodel_matter_power k a s) = raise_error one_halo_failure s) /\
  (for_all_outcomes silent -> is_nan Delta_v = false ->
     (two_ok = false ->
        ccl_twohalo_matter_power k a s
        = (NAN, raise_error two_halo_failure s)) /\
     snd (ccl_halomodel_matter_power k a s)
       = (if one_halo_converges p k a
          then if two_ok then s else raise_error two_halo_failure s
          else raise_error one_halo_failure s) /\
     snd (ccl_halomodel_matter_power_rl k a s)
       = (if two_ok
          then if one_halo_converges p k a then s
               else raise_error one_halo_failure s
          else raise_error two_halo_failure s)) /\
  (* 5 *)
  params (cosmo (snd (ccl_onehalo_matter_power k a s))) = p /\
  params (cosmo (snd (ccl_twohalo_matter_power k a s))) = p /\
  params (cosmo (snd (ccl_halomodel_matter_power k a s))) = p /\
  params (cosmo (snd (ccl_halomodel_matter_power_rl k a s))) = p.
Proof.
  intros p Delta_v after_quadratures rest two_ok.
  pose proof (entry_points_on_failure k a s) as H. cbv zeta in H. fold p in H.
  destruct H as (E1 & E2 & E3 & E4 & E5 & E6 & E7 & E8 & E9 & E10).
  assert (Htwo : two_ok = false ->
            two_halo_converges p k a = false \/ two_halo_converges p 0 a = false).
  { unfold two_ok. intros H. apply andb_false_iff in H. exact H. }
  split; [reflexivity |].
  split; [| split; [| split; [| split; [| split; [| split; [| split;
    [| split; [| split]]]]]]]].
  - intros H. split; [apply one_halo_integral_fails; exact H | apply E1; exact H].
  - intros k' H. apply two_halo_integral_fails. exact H.
  - intros H. apply E2, Htwo, H.
  - intros [H | H]; apply E3; [left; exact H | right; apply Htwo, H].
  - unfold ccl_twohalo_matter_power, rest, after_quadratures.
    rewrite !bind_run. reflexivity.
  - exact E5.
  - exact E6.
  - exact E4.
  - intros Hsilent Hnan.
    pose proof (twohalo_leaves p a Hsilent Hnan k s eq_refl) as L2.
    fold two_ok in L2.
    split; [| split].
    + intros H. rewrite (surjective_pairing (ccl_twohalo_matter_power k a s)).
      rewrite (E2 (Htwo H)), L2, H. reflexivity.
    + rewrite E5, L2. unfold ccl_onehalo_matter_power.
      assert (Hs2 : params (cosmo (if two_ok then s
                                   else raise_error two_halo_failure s)) = p)
        by (destruct two_ok; reflexivity).
      rewrite (one_halo_integral_leaves p a Hsilent Hnan k _ Hs2).
      destruct (one_halo_converges p k a); [reflexivity |].
      apply raise_error_params. exact Hs2.
    + rewrite E6. unfold ccl_onehalo_matter_power.
      rewrite (one_halo_integral_leaves p a Hsilent Hnan k s eq_refl).
      assert (Hs1 : params (cosmo (if one_halo_converges p k a then s
                                   else raise_error one_halo_failure s)) = p)
        by (destruct (one_halo_converges p k a); reflexivity).
      rewrite (twohalo_leaves p a Hsilent Hnan k _ Hs1). fold two_ok.
      destruct two_ok; [reflexivity |].
      apply raise_error_params. exact Hs1.
  - repeat split; assumption.
Qed.

End FailurePropagation.

(** C2 with every quadrature reporting GSL_EMAXITER, from a memory that
    holds an earlier error. *)
Lemma quadrature_failure_spec_witness :
  (@one_halo_integral example_maxiter 0.1 1 example_latched_mem
     = (NAN, raise_error (@one_halo_failure example_maxiter) example_latched_mem) /\
   @ccl_onehalo_matter_power example_maxiter 0.1 1 example_latched_mem
     = (NAN, raise_error (@one_halo_failure example_maxiter) example_latched_mem)) /\
  @two_halo_integral example_maxiter 0 1 example_latched_mem
     = (NAN, raise_error (@two_halo_failure example_maxiter) example_latched_mem) /\
  fst (@ccl_twohalo_matter_power example_maxiter 0.1 1 example_latched_mem) = NAN /\
  (fst (@ccl_halomodel_matter_power example_maxiter 0.1 1 example_latched_mem) = NAN /\
   fst (@ccl_halomodel_matter_power_rl example_maxiter 0.1 1 example_latched_mem)
     = NAN) /\
  snd (@ccl_halomodel_matter_power example_maxiter 0.1 1 example_latched_mem)
    = raise_error (@one_halo_failure example_maxiter) example_latched_mem /\
  @ccl_twohalo_matter_power example_maxiter 0.1 1 example_latched_mem
    = (NAN, raise_error (@two_halo_failure example_maxiter) example_latched_mem) /\
  snd (@ccl_halomodel_matter_power_rl example_maxiter 0.1 1 example_latched_mem)
    = raise_error (@two_halo_failure example_maxiter) example_latched_mem.
Proof.
  pose proof (@quadrature_failure_spec example_maxiter 0.1 1 example_latched_mem)
    as H.
  cbv zeta in H.
  destruct H as (_ & H1 & H2 & H3 & H4 & _ & _ & _ & H8 & H9 & _).
  destruct H9 as (H9a & _ & H9c);
    [exact example_maxiter_silent | vm_compute; reflexivity |].
  split; [| split; [| split; [| split; [| split; [| split]]]]].
  - apply H1. vm_compute. reflexivity.
  - apply H2. vm_compute. reflexivity.
  - apply H3. vm_compute. reflexivity.
  - apply H4. left. vm_compute. reflexivity.
  - apply H8. vm_compute. reflexivity.
  - apply H9a. vm_compute. reflexivity.
  - exact H9c.
Defined.

(** ** The Duffy guard at a NaN overdensity *)

Lemma run_qag_last_error_at (p : ccl_parameters) (e : ccl_error)
    (F : float -> M float) (t : qag_run) :
  (forall x s, params (cosmo s) = p -> snd (F x s) = raise_error e s) ->
  forall s, params (cosmo s) = p -> evaluates t = true ->
  snd (run_qag t F s) = raise_error e s.
Proof.
  intros HF. induction t as [q r err | x next IH]; intros s Hs Ht.
  - discriminate.
  - simpl. rewrite bind_run, (HF x s Hs).
    destruct (next (fst (F x s))) as [q r err | x' next'] eqn:Hn.
    + reflexivity.
    + specialize (IH (fst (F x s)) (raise_error e s)). rewrite Hn in IH.
      rewrite IH by (try reflexivity; exact Hs). reflexivity.
Qed.

Lemma preserves_ccl_halomodel_matter_power_rl {E : Externals}
    (p : ccl_parameters) (k a : float) :
  is_nan (virial_overdensity p a) = false ->
  collaborators_quiet -> mismatch_code_distinct ->
  preserves (no_mismatch p) (ccl_halomodel_matter_power_rl k a).
Proof.
  intros Hnan Hq Hc. unfold ccl_halomodel_matter_power_rl.
  apply preserves_bind;
    [apply preserves_ccl_onehalo_matter_power; assumption | intros s0 Hs0].
  apply preserves_bind;
    [apply preserves_ccl_twohalo_matter_power; assumption | intros s1 Hs1].
  apply preserves_ret.
Qed.

Section NaNGuard.

Context {E : Externals}.

Variable p : ccl_parameters.
Variable a : float.

Hypothesis Dv_nan : is_nan (virial_overdensity p a) = true.

Lemma window_function_nan (m k : float) (s : mem) :
  params (cosmo s) = p ->
  window_function m k a (virial_overdensity p a) ccl_nfw s
  = (m * fst (u_nfw_c NAN m k a (raise_error (model_mismatch msg_duffy) s))
       / value (ccl_rho_x p 1 ccl_species_m_label 1),
     snd (u_nfw_c NAN m k a (raise_error (model_mismatch msg_duffy) s))).
Proof.
  intros Hs. unfold window_function. rewrite !bind_run.
  rewrite duffy_run. cbv zeta. rewrite call_params, Hs.
  rewrite (is_nan_true_eqb _ Dv_nan). cbn [fst snd].
  rewrite call_fst, Hs.
  rewrite (raise_error_params _ s
             (snd (call (fun q => Dv_BryanNorman q a)
                     (snd (call (fun q => ccl_rho_x q 1 ccl_species_m_label 1) s)))))
    by (rewrite !call_params; reflexivity).
  reflexivity.
Qed.

Lemma one_halo_integrand_nan (k x : float) (s : mem) :
  params (cosmo s) = p ->
  snd (one_halo_integrand {| oh_k := k; oh_a := a |} x s)
  = snd (call (fun q => ccl_massfunc q (pow 10 x) a (virial_overdensity p a))
           (snd (u_nfw_c NAN (pow 10 x) k a
                   (raise_error (model_mismatch msg_duffy) s)))).
Proof.
  intros Hs. unfold one_halo_integrand; cbn [oh_k oh_a]. rewrite !bind_run.
  cbn [snd ret]. rewrite call_fst, Hs. fold (virial_overdensity p a).
  rewrite window_function_nan by (rewrite call_params; exact Hs). cbn [snd].
  rewrite (raise_error_params _ s (snd (call _ s))) by apply call_params.
  reflexivity.
Qed.

Lemma two_halo_integrand_nan (k x : float) (s : mem) :
  params (cosmo s) = p ->
  snd (two_halo_integrand {| th_k := k; th_a := a |} x s)
  = snd (call (fun q => ccl_halo_bias q (pow 10 x) a (virial_overdensity p a))
           (snd (call (fun q => ccl_massfunc q (pow 10 x) a
                                  (virial_overdensity p a))
                   (snd (u_nfw_c NAN (pow 10 x) k a
                           (raise_error (model_mismatch msg_duffy) s)))))).
Proof.
  intros Hs. unfold two_halo_integrand; cbn [th_k th_a]. rewrite !bind_run.
  cbn [snd ret]. rewrite call_fst, Hs. fold (virial_overdensity p a).
  rewrite window_function_nan by (rewrite call_params; exact Hs). cbn [snd].
  rewrite (raise_error_params _ s (snd (call _ s))) by apply call_params.
  reflexivity.
Qed.

Lemma twohalo_nan_memory (k : float) (s : mem) :
  params (cosmo s) = p ->
  snd (ccl_twohalo_matter_power k a s)
  = snd (call (fun q => ccl_linear_matter_power q k a)
           (snd (call (fun q => Dv_BryanNorman q a)
                   (raise_error (model_mismatch msg_duffy) s)))).
Proof.
  intros Hs. unfold ccl_twohalo_matter_power. rewrite !bind_run.
  cbn [snd ret].
  set (s2 := snd (two_halo_integral 0 a (snd (two_halo_integral k a s)))).
  assert (Hp2 : params (cosmo s2) = p).
  { unfold s2. rewrite !stable_params by auto with stable_db. exact Hs. }
  rewrite call_fst, Hp2. fold (virial_overdensity p a).
  set (s3 := snd (call (fun q => Dv_BryanNorman q a) s2)).
  assert (Hp3 : params (cosmo s3) = p).
  { unfold s3. rewrite call_params. exact Hp2. }
  set (s4 := snd (window_function HM_MMIN k a (virial_overdensity p a) ccl_nfw s3)).
  assert (Hp4 : params (cosmo s4) = p).
  { unfold s4. rewrite stable_params by auto with stable_db. exact Hp3. }
  rewrite (window_function_nan HM_MMIN 0 s4 Hp4). cbn [snd].
  rewrite (u_nfw_c_special_case _ _ 0 a _ eq_refl). cbn [snd].
  rewrite (raise_error_params _ s s4) by (rewrite Hp4, Hs; reflexivity).
  reflexivity.
Qed.

Lemma one_halo_integrand_nan_silent (k x : float) (s : mem) :
  for_all_outcomes silent ->
  params (cosmo s) = p ->
  snd (one_halo_integrand {| oh_k := k; oh_a := a |} x s)
  = raise_error (model_mismatch msg_duffy) s.
Proof.
  intros Hsilent Hs. rewrite one_halo_integrand_nan by exact Hs.
  rewrite call_silent by apply Hsilent.
  apply (unchanged_u_nfw_c p a Hsilent). exact Hs.
Qed.

Lemma onehalo_nan_memory (k : float) (s : mem) :
  for_all_outcomes silent ->
  params (cosmo s) = p ->
  evaluates mass_quadrature = true ->
  snd (ccl_onehalo_matter_power k a s)
  = if one_halo_converges p k a
    then {| cosmo := {| params := p; status_message := msg_duffy |};
            status := status s |}
    else raise_error one_halo_failure s.
Proof.
  intros Hsilent Hs Hev. unfold ccl_onehalo_matter_power.
  rewrite one_halo_integral_unfold. cbv zeta. rewrite Hs.
  fold (one_halo_converges p k a).
  destruct (one_halo_converges p k a); cbn [snd]; [| reflexivity].
  unfold one_halo_qag. rewrite with_local_status_snd.
  rewrite (run_qag_last_error_at p (model_mismatch msg_duffy)).
  - unfold raise_error; cbn. rewrite Hs. reflexivity.
  - intros x s' Hs'. apply one_halo_integrand_nan_silent; assumption.
  - exact Hs.
  - exact Hev.
Qed.

End NaNGuard.

Section GuardAtEntryPoints.

Context {E : Externals}.

Lemma onehalo_without_evaluation (k a : float) (s : mem) :
  evaluates mass_quadrature = false ->
  snd (ccl_onehalo_matter_power k a s)
  = if one_halo_converges (params (cosmo s)) k a then s
    else raise_error one_halo_failure s.
Proof.
  intros Hev. unfold ccl_onehalo_matter_power.
  rewrite one_halo_integral_unfold. cbv zeta.
  fold (one_halo_converges (params (cosmo s)) k a).
  destruct (one_halo_converges _ k a); cbn [snd]; [| reflexivity].
  unfold one_halo_qag. rewrite with_local_status_snd.
  fold mass_quadrature. destruct mass_quadrature; [| discriminate].
  cbn. destruct s; reflexivity.
Qed.

(** C10, as the code has it.  The window always asks for the Duffy virial
    relation (its parameters carry no concentration label) and the three
    entry points always hand it the value Delta_v of the virial-overdensity
    collaborator at the requested scale factor.  The guard compares with
    [!=], so all depends on whether Delta_v is NaN.

    Delta_v is NaN: the guard takes the ModelMismatch path in every window
    evaluation and so in every call of either integrand.  The two-halo
    term always reaches it in its windows at M_min: it ends in the memory
    that the guard's code and message, followed by the virial-overdensity
    call of the profile and the linear power, leave; so does the total
    with the one-halo term called first, and with the one-halo term called
    last that term runs from there.  If these two collaborators raise
    nothing, the two-halo term ends with the ModelMismatch code and
    message.  The one-halo term reaches the guard in the integrand calls of
    its quadrature only: with silent collaborators and at least one
    evaluation a converging quadrature leaves the guard's message in the
    buffer; a quadrature that returns without evaluating leaves no trace
    of the guard.

    Delta_v is not NaN: the guard is passed, the concentration is the Duffy
    one, and an entry point that starts without a trace of ModelMismatch
    ends without one, in either order of the total, as long as no
    collaborator raises that error itself. *)
Theorem mismatch_only_for_nan_overdensity (k a : float) (s : mem) :
  let p := params (cosmo s) in
  let Delta_v := virial_overdensity p a in
  let s1 := snd (call (fun q => Dv_BryanNorman q a) s) in
  let mismatch := raise_error (model_mismatch msg_duffy) s in
  let reported :=
    snd (call (fun q => ccl_linear_matter_power q k a)
           (snd (call (fun q => Dv_BryanNorman q a) mismatch))) in
  (is_nan Delta_v = true ->
     (forall m,
        ccl_halo_concentration m a Delta_v ccl_duffy2008_virial s
        = (NAN, raise_error (model_mismatch msg_duffy) s1)) /\
     (forall m k',
        window_function m k' a Delta_v ccl_nfw s
        = (m * fst (u_nfw_c NAN m k' a mismatch)
             / value (ccl_rho_x p 1 ccl_species_m_label 1),
           snd (u_nfw_c NAN m k' a mismatch))) /\
     (forall x,
        snd (one_halo_integrand {| oh_k := k; oh_a := a |} x s)
        = snd (call (fun q => ccl_massfunc q (pow 10 x) a Delta_v)
                 (snd (u_nfw_c NAN (pow 10 x) k a mismatch)))) /\
     (forall x,
        snd (two_halo_integrand {| th_k := k; th_a := a |} x s)
        = snd (call (fun q => ccl_halo_bias q (pow 10 x) a Delta_v)
                 (snd (call (fun q => ccl_massfunc q (pow 10 x) a Delta_v)
                         (snd (u_nfw_c NAN (pow 10 x) k a mismatch)))))) /\
     snd (ccl_twohalo_matter_power k a s) = reported /\
     snd (ccl_halomodel_matter_power_rl k a s) = reported /\
     snd (ccl_halomodel_matter_power k a s)
       = snd (ccl_onehalo_matter_power k a reported) /\
     (raised (Dv_BryanNorman p a) = None ->
      raised (ccl_linear_matter_power p k a) = None ->
      snd (ccl_twohalo_matter_power k a s) = mismatch /\
      snd (ccl_halomodel_matter_power_rl k a s) = mismatch) /\
     (for_all_outcomes silent -> evaluates mass_quadrature = true ->
      snd (ccl_onehalo_matter_power k a s)
      = if one_halo_converges p k a
        then {| cosmo := {| params := p; status_message := msg_duffy |};
                status := status s |}
        else raise_error one_halo_failure s) /\
     (evaluates mass_quadrature = false ->
      snd (ccl_onehalo_matter_power k a s)
      = if one_halo_converges p k a then s
        else raise_error one_halo_failure s)) /\
  (is_nan Delta_v = false ->
     (forall m,
        ccl_halo_concentration m a Delta_v ccl_duffy2008_virial s
        = (duffy_concentration p m a, s1)) /\
     (forall m k',
        fst (window_function m k' a Delta_v ccl_nfw s)
        = m * nfw_transform p (duffy_concentration p m a) m k' a
          / value (ccl_rho_x p 1 ccl_species_m_label 1)) /\
     (collaborators_quiet -> mismatch_code_distinct -> no_mismatch p s ->
        no_mismatch p (snd (ccl_onehalo_matter_power k a s)) /\
        no_mismatch p (snd (ccl_twohalo_matter_power k a s)) /\
        no_mismatch p (snd (ccl_halomodel_matter_power k a s)) /\
        no_mismatch p (snd (ccl_halomodel_matter_power_rl k a s)))).
Proof.
  intros p Delta_v s1 mismatch reported.
  pose proof (duffy_guard_by_overdensity k a s) as G. cbv zeta in G.
  fold p Delta_v s1 in G. destruct G as [Gnan Gfin].
  split; intros Hnan.
  - assert (Htwo : forall s', params (cosmo s') = p ->
              snd (ccl_twohalo_matter_power k a s')
              = snd (call (fun q => ccl_linear_matter_power q k a)
                       (snd (call (fun q => Dv_BryanNorman q a)
                               (raise_error (model_mismatch msg_duffy) s'))))).
    { intros s' Hs'. apply (twohalo_nan_memory p a Hnan k s' Hs'). }
    assert (Hrl : snd (ccl_halomodel_matter_power_rl k a s) = reported).
    { unfold ccl_halomodel_matter_power_rl. rewrite !bind_run. cbn [snd ret].
      rewrite Htwo by (apply stable_params; auto with stable_db).
      unfold reported, mismatch.
      rewrite (raise_error_params _ s (snd (ccl_onehalo_matter_power k a s)))
        by (apply stable_params; auto with stable_db).
      reflexivity. }
    split; [exact (Gnan Hnan) |].
    split; [intros m k'; apply (window_function_nan p a Hnan m k' s eq_refl) |].
    split; [intros x; apply (one_halo_integrand_nan p a Hnan k x s eq_refl) |].
    split; [intros x; apply (two_halo_integrand_nan p a Hnan k x s eq_refl) |].
    split; [apply Htwo; reflexivity |].
    split; [exact Hrl |].
    split.
    { unfold ccl_halomodel_matter_power. rewrite !bind_run. cbn [snd ret].
      rewrite (Htwo s eq_refl). reflexivity. }
    split.
    { intros HDv Hlp.
      assert (Hrep : reported = mismatch).
      { unfold reported.
        rewrite (call_silent _ mismatch) by exact HDv.
        apply call_silent. exact Hlp. }
      rewrite (Htwo s eq_refl), Hrl. fold mismatch reported.
      split; exact Hrep. }
    split.
    { intros Hsilent Hev.
      apply (onehalo_nan_memory p a Hnan k s Hsilent eq_refl Hev). }
    { intros Hev. apply onehalo_without_evaluation. exact Hev. }
  - destruct (Gfin Hnan) as (G1 & G2 & G3).
    split; [exact G1 | split; [exact G2 |]].
    intros Hq Hc Hs. destruct (G3 Hq Hc Hs) as (I1 & I2 & I3).
    split; [exact I1 | split; [exact I2 | split; [exact I3 |]]].
    apply preserves_ccl_halomodel_matter_power_rl; assumption.
Qed.

End GuardAtEntryPoints.

(** C10 at a NaN scale factor, where the overdensity is NaN (with the
    midpoint quadrature and with one that does not evaluate), and at the
    present epoch, where it is about 337. *)
Lemma mismatch_only_for_nan_overdensity_witness :
  let mismatch := raise_error (@model_mismatch example_ok msg_duffy) example_mem in
  (@ccl_halo_concentration example_ok 1e12 nan
      (@virial_overdensity example_ok example_params nan)
      ccl_duffy2008_virial example_mem
   = (NAN, mismatch) /\
   snd (@ccl_twohalo_matter_power example_ok 0.1 nan example_mem) = mismatch /\
   snd (@ccl_halomodel_matter_power_rl example_ok 0.1 nan example_mem)
     = mismatch /\
   snd (@ccl_onehalo_matter_power example_ok 0.1 nan example_mem)
     = {| cosmo := {| params := example_params; status_message := msg_duffy |};
          status := 0 |} /\
   snd (@ccl_onehalo_matter_power example_no_evaluation 0.1 nan example_mem)
     = example_mem) /\
  (@ccl_halo_concentration example_ok 1e12 1
      (@virial_overdensity example_ok example_params 1)
      ccl_duffy2008_virial example_mem
   = (@duffy_concentration example_ok example_params 1e12 1, example_mem) /\
   @no_mismatch example_ok example_params
      (snd (@ccl_onehalo_matter_power example_ok 0.1 1 example_mem)) /\
   @no_mismatch example_ok example_params
      (snd (@ccl_twohalo_matter_power example_ok 0.1 1 example_mem)) /\
   @no_mismatch example_ok example_params
      (snd (@ccl_halomodel_matter_power example_ok 0.1 1 example_mem)) /\
   @no_mismatch example_ok example_params
      (snd (@ccl_halomodel_matter_power_rl example_ok 0.1 1 example_mem))).
Proof.
  intros mismatch.
  pose proof (@mismatch_only_for_nan_overdensity example_ok 0.1 nan example_mem)
    as Hn.
  pose proof (@mismatch_only_for_nan_overdensity example_no_evaluation 0.1 nan
                example_mem) as Hz.
  pose proof (@mismatch_only_for_nan_overdensity example_ok 0.1 1 example_mem)
    as Hf.
  cbv zeta in Hn, Hz, Hf.
  destruct Hn as [Hn _]. destruct Hz as [Hz _]. destruct Hf as [_ Hf].
  destruct Hn as (N1 & _ & _ & _ & _ & _ & _ & N8 & N9 & _);
    [vm_compute; reflexivity |].
  destruct Hz as (_ & _ & _ & _ & _ & _ & _ & _ & _ & Z10);
    [vm_compute; reflexivity |].
  destruct Hf as (F1 & _ & F3); [vm_compute; reflexivity |].
  split.
  - destruct N8 as [N8a N8b]; [reflexivity | reflexivity |].
    split; [apply N1 |].
    split; [exact N8a |].
    split; [exact N8b |].
    split.
    + rewrite N9; [reflexivity | exact example_ok_silent | reflexivity].
    + rewrite Z10; reflexivity.
  - split; [apply F1 |].
    apply F3.
    + exact example_ok_quiet.
    + exact example_ok_codes.
    + exact example_mem_no_mismatch.
Defined.

End HaloMod.
